(** * split_pdf.py: page partitioning, naming and packaging

    A shallow embedding of [src/split_pdf.py] (the two core functions
    [split_to_pdf] and [convert_to_jpg] and the request handler that
    parses the name list, checks the name count, dispatches and zips),
    with the properties of the specification stated over it.

    Conventions of the embedding.
    - A Python [int] is a [Z]; a Python [str] is the list of its Unicode
      code points ([N]), so that [str.strip] sees the same characters
      Python sees.
    - Effects are explicit: a computation returns the list of the
      observable events it performed (Streamlit messages, files written,
      archive members added) together with either a value or the
      exception that stopped it.
    - The runtime environment (is pdf2image importable, what the renderer
      and the PDF parser return, which paths can be written) is a record
      [Env] that the functions take as an argument. *)

From Stdlib Require Import String Ascii List ZArith NArith Lia Bool.
Import ListNotations.

Local Open Scope Z_scope.

(** ** Python strings *)

Module PyStr.

Definition char := N.
Definition str := list char.

(** A literal of the source, given by its ASCII text. *)
Definition lit (s : string) : str :=
  List.map N_of_ascii (list_ascii_of_string s).

Definition newline : char := 10%N.
Definition slash : char := 47%N.

(** [str.isspace] for one character: the code points CPython's
    [_PyUnicode_IsWhitespace] accepts. *)
Definition isspace (c : char) : bool :=
  ((9 <=? c) && (c <=? 13) || (28 <=? c) && (c <=? 32)
   || (c =? 133) || (c =? 160) || (c =? 5760)
   || (8192 <=? c) && (c <=? 8202)
   || (c =? 8232) || (c =? 8233) || (c =? 8239) || (c =? 8287)
   || (c =? 12288))%N.

Fixpoint lstrip (s : str) : str :=
  match s with
  | [] => []
  | c :: s' => if isspace c then lstrip s' else s
  end.

Definition rstrip (s : str) : str := rev (lstrip (rev s)).

(** [s.strip()] *)
Definition strip (s : str) : str := rstrip (lstrip s).

(** [s.split(sep)] for a one-character separator: the pieces between
    the separators, empty pieces included; never the empty list. *)
Fixpoint split (sep : char) (s : str) : list str :=
  match s with
  | [] => [[]]
  | c :: s' =>
      if (c =? sep)%N then [] :: split sep s'
      else match split sep s' with
           | [] => [[c]]
           | piece :: pieces => (c :: piece) :: pieces
           end
  end.

(** [sep.join(pieces)], used to state what [split] returns. *)
Fixpoint join (sep : char) (pieces : list str) : str :=
  match pieces with
  | [] => []
  | [p] => p
  | p :: ps => p ++ sep :: join sep ps
  end.

(** Truth value of a string or a list in a condition: non-empty. *)
Definition truthy {A} (s : list A) : bool :=
  match s with [] => false | _ => true end.

Definition startswith1 (c : char) (s : str) : bool :=
  match s with x :: _ => (x =? c)%N | [] => false end.

Definition endswith1 (c : char) (s : str) : bool := startswith1 c (rev s).

End PyStr.
Import PyStr.

(** ** The name list (line 104)

    [[name.strip() for name in custom_names_text.split('\n') if name.strip()]] *)

Fixpoint names_of_lines (lines : list str) : list str :=
  match lines with
  | [] => []
  | name :: rest =>
      if truthy (strip name) then strip name :: names_of_lines rest
      else names_of_lines rest
  end.

Definition parse_names (custom_names_text : str) : list str :=
  names_of_lines (split newline custom_names_text).

(** The name list as the specification words it: the text split on line
    breaks, blank lines discarded, the remaining lines kept as they are.
    A line is blank when it holds nothing but white space. *)
Definition is_blank (line : str) : bool := forallb isspace line.

Definition spec_parse_names (text : str) : list str :=
  filter (fun line => negb (is_blank line)) (split newline text).

(** ** Paths ([os.path] on a POSIX host) *)

(** [os.path.join(a, b)] *)
Definition os_path_join (a b : str) : str :=
  if startswith1 slash b then b
  else if negb (truthy a) || endswith1 slash a then a ++ b
  else a ++ slash :: b.

Fixpoint take_until (sep : char) (s : str) : str :=
  match s with
  | [] => []
  | c :: s' => if (c =? sep)%N then [] else c :: take_until sep s'
  end.

(** [os.path.basename(p)]: what follows the last slash of [p]. *)
Definition os_path_basename (p : str) : str :=
  rev (take_until slash (rev p)).

(** ** Python integers and sequences *)

Inductive exn : Type :=
| IndexError
| ValueError
| ZeroDivisionError
| OSError
| LibraryError.

(** How a failed write ends: an [OSError] of the file system, a
    [ValueError] for a path [open] refuses (one holding a NUL
    character), or an error of the library that serialises the
    document or the image.  None of them is an [IndexError]. *)
Inductive write_failure : Type :=
| FailOSError
| FailValueError
| FailLibraryError.

Definition exn_of_write_failure (f : write_failure) : exn :=
  match f with
  | FailOSError => OSError
  | FailValueError => ValueError
  | FailLibraryError => LibraryError
  end.

Inductive result (A : Type) : Type :=
| Ok (a : A)
| Raise (e : exn).
Arguments Ok {A} a.
Arguments Raise {A} e.

Definition len {A} (l : list A) : Z := Z.of_nat (length l).

(** [l[i]]: a negative index counts from the end; out of range raises. *)
Definition getitem {A} (l : list A) (i : Z) : result A :=
  let j := if i <? 0 then i + len l else i in
  if j <? 0 then Raise IndexError
  else match nth_error l (Z.to_nat j) with
       | Some a => Ok a
       | None => Raise IndexError
       end.

(** [len(range(start, stop, step))] for a non-zero step. *)
Definition range_length (start stop step : Z) : Z :=
  if 0 <? step
  then (if start <? stop then (stop - start - 1) / step + 1 else 0)
  else (if stop <? start then (start - stop - 1) / (- step) + 1 else 0).

(** The values a [for] loop over [range(start, stop, step)] visits;
    a zero step raises [ValueError]. *)
Definition range3 (start stop step : Z) : result (list Z) :=
  if step =? 0 then Raise ValueError
  else Ok (List.map (fun k => start + Z.of_nat k * step)
                    (seq 0 (Z.to_nat (range_length start stop step)))).

Definition range2 (start stop : Z) : list Z :=
  List.map (fun k => start + Z.of_nat k) (seq 0 (Z.to_nat (stop - start))).

Definition range1 (stop : Z) : list Z := range2 0 stop.

(** [math.ceil(a / b)] on integers.  Python forms the float quotient
    first; for operands below 2^53 in absolute value, which page
    counts and the number widget always are, the ceiling of that float
    is the ceiling of the exact quotient, which is what is computed
    here.  A zero divisor raises. *)
Definition math_ceil_div (a b : Z) : result Z :=
  if b =? 0 then Raise ZeroDivisionError else Ok (- ((- a) / b)).

(** ** Events, environment and the effect monad *)

Section Core.

Variables Page Image : Type.

(** What a file is written with. *)
Inductive content : Type :=
| UploadedBytes (buffer : list N)
| PdfPages (pages : list Page)
| JpegImage (image : Image).

(** The texts shown to the user, by the line of the source that
    formats them, with the values they interpolate. *)
Inductive message : Type :=
| MsgGeneratedPdf (output_filename : str) (first_page last_page : Z)
| MsgJpgUnavailable
| MsgPageCountMismatch (total_pages images : Z)
| MsgGeneratedJpg (output_filename : str) (page : Z)
| MsgNoNames
| MsgTotalPages (file_name : str) (total_pages : Z)
| MsgNameCountMismatch
| MsgExpectedProvided (num_expected_files provided : Z)
| MsgSplitting
| MsgConverting
| MsgSevere (e : exn)
| MsgPleaseUpload
| MsgPdf2imageMissing.

(** What a run does that can be observed, in the order it does it.
    [MakeDirs] and [ZipWrite] are taken to succeed: the output directory
    is made in a fresh temporary directory and the files zipped are the
    ones just written. *)
Inductive event : Type :=
| StError (m : message)
| StWarning (m : message)
| StInfo (m : message)
| StWrite (m : message)
| StSuccess
| StDownloadButton (data file_name : str)
| FileWrite (path : str) (c : content)
| MakeDirs (path : str)
| ZipOpen (zip_path : str)
| ZipWrite (file arcname : str)
| TempDirRemoved (path : str).

Record Env : Type := {
  (** [None] when [from pdf2image import convert_from_path] failed
      (line 17); otherwise what the renderer returns for a path. *)
  convert_from_path : option (str -> result (list Image));
  (** What [PdfReader(path).pages] holds, or the parser's exception. *)
  PdfReader : str -> result (list Page);
  (** Whether creating and writing the file at a path succeeds. *)
  writable : str -> bool;
  (** How the write to a path fails, when it does. *)
  write_error : str -> write_failure;
  (** The directory [tempfile.TemporaryDirectory()] hands out. *)
  temp_dir : str
}.

(** A computation: the events performed, in order, and how it ended. *)
Definition M (A : Type) : Type := (list event * result A)%type.

Definition ret {A} (a : A) : M A := ([], Ok a).

Definition bind {A B} (m : M A) (f : A -> M B) : M B :=
  match m with
  | (t, Ok a) => let (t', r) := f a in (t ++ t', r)
  | (t, Raise e) => (t, Raise e)
  end.

Definition emit (e : event) : M unit := ([e], Ok tt).

Definition lift {A} (r : result A) : M A := ([], r).

Definition events {A} (m : M A) : list event := fst m.
Definition outcome {A} (m : M A) : result A := snd m.

Notation "x <- m ;; k" := (bind m (fun x => k))
  (at level 61, m at next level, right associativity).
Notation "m ;; k" := (bind m (fun _ => k))
  (at level 61, right associativity).

(** [try: m  except Exception as e: h e] *)
Definition try_except {A} (m : M A) (h : exn -> M A) : M A :=
  match m with
  | (t, Ok a) => (t, Ok a)
  | (t, Raise e) => let (t', r) := h e in (t ++ t', r)
  end.

(** [with tempfile.TemporaryDirectory() as d: m]: the directory is
    removed however [m] ends. *)
Definition with_temp_dir {A} (d : str) (m : M A) : M A :=
  (fst m ++ [TempDirRemoved d], snd m).

(** A [for] loop whose body updates the local variables [s]. *)
Fixpoint for_each {X S} (xs : list X) (body : X -> S -> M S) (s : S) : M S :=
  match xs with
  | [] => ret s
  | x :: xs' => s' <- body x s ;; for_each xs' body s'
  end.

(** The list built by a loop that fetches one element per index. *)
Fixpoint fetch {A} (l : list A) (indices : list Z) : result (list A) :=
  match indices with
  | [] => Ok []
  | i :: rest =>
      match getitem l i with
      | Raise e => Raise e
      | Ok a => match fetch l rest with
                | Raise e => Raise e
                | Ok tl => Ok (a :: tl)
                end
      end
  end.

Variable env : Env.

(** [open(path, "wb")] followed by the write, or [image.save(path)]:
    the file is written, or the exception of the failed write is
    raised. *)
Definition write_file (path : str) (c : content) : M unit :=
  if writable env path then emit (FileWrite path c)
  else lift (Raise (exn_of_write_failure (write_error env path))).

(** ** [split_to_pdf] (lines 21-42) *)

Definition split_body (reader : list Page) (total_pages pages_per_split : Z)
    (output_filenames : list str) (output_dir : str)
    (i : Z) (locals : list str * Z) : M (list str * Z) :=
  let '(generated_files, file_index) := locals in
  let start_page := i in
  let end_page := Z.min (i + pages_per_split) total_pages in
  writer <- lift (fetch reader (range2 start_page end_page)) ;;
  name <- lift (getitem output_filenames file_index) ;;
  let output_filename := name ++ lit ".pdf" in
  let output_path := os_path_join output_dir output_filename in
  write_file output_path (PdfPages writer) ;;
  emit (StWrite (MsgGeneratedPdf output_filename (start_page + 1) end_page)) ;;
  ret (generated_files ++ [output_path], file_index + 1).

Definition split_to_pdf (reader : list Page) (total_pages pages_per_split : Z)
    (output_filenames : list str) (output_dir : str) : M (list str) :=
  chunk_starts <- lift (range3 0 total_pages pages_per_split) ;;
  locals <- for_each chunk_starts
              (split_body reader total_pages pages_per_split
                          output_filenames output_dir)
              ([], 0) ;;
  ret (fst locals).

(** ** [convert_to_jpg] (lines 44-62) *)

Definition convert_body (images : list Image) (output_filenames : list str)
    (output_dir : str) (i : Z) (generated_files : list str) : M (list str) :=
  name <- lift (getitem output_filenames i) ;;
  let output_filename := name ++ lit ".jpg" in
  let output_path := os_path_join output_dir output_filename in
  image <- lift (getitem images i) ;;
  write_file output_path (JpegImage image) ;;
  emit (StWrite (MsgGeneratedJpg output_filename (i + 1))) ;;
  ret (generated_files ++ [output_path]).

Definition convert_to_jpg (pdf_path : str) (total_pages : Z)
    (output_filenames : list str) (output_dir : str) : M (list str) :=
  match convert_from_path env with
  | None => emit (StError MsgJpgUnavailable) ;; ret []
  | Some render =>
      images <- lift (render pdf_path) ;;
      (if negb (len images =? total_pages)
       then emit (StWarning (MsgPageCountMismatch total_pages (len images)))
       else ret tt) ;;
      for_each (range1 (Z.min total_pages (len output_filenames)))
               (convert_body images output_filenames output_dir) []
  end.

(** ** The request handler (lines 102-164) *)

Inductive format : Type := pdf | jpg.

Record upload : Type := {
  upload_name : str;
  getbuffer : list N
}.

(** What the sidebar widgets hold when the script runs. *)
Record request : Type := {
  uploaded_file : option upload;
  output_format : format;
  number_input : Z;
  custom_names_text : str;
  button : bool
}.

(** Lines 87-91: the widget's value for PDF output, 1 for JPG. *)
Definition pages_per_split (r : request) : Z :=
  match output_format r with
  | pdf => number_input r
  | jpg => 1
  end.

(** "分割結果.zip" *)
Definition zip_file_name : str :=
  [20998; 21106; 32080; 26524]%N ++ lit ".zip".

(** Lines 144-160: zip the generated files, if there are any, and offer
    the archive for download. *)
Definition package (generated_files : list str) : M unit :=
  if truthy generated_files then
    let zip_path := os_path_join (temp_dir env) zip_file_name in
    (if writable env zip_path then emit (ZipOpen zip_path)
     else lift (Raise OSError)) ;;
    for_each generated_files
      (fun file _ => emit (ZipWrite file (os_path_basename file))) tt ;;
    emit StSuccess ;;
    emit (StDownloadButton zip_path zip_file_name)
  else ret tt.

(** Lines 115-160: the body of the [with tempfile.TemporaryDirectory()]. *)
Definition process (r : request) (file : upload)
    (output_filenames : list str) : M unit :=
  let input_pdf_path := os_path_join (temp_dir env) (upload_name file) in
  write_file input_pdf_path (UploadedBytes (getbuffer file)) ;;
  reader <- lift (PdfReader env input_pdf_path) ;;
  let total_pages := len reader in
  emit (StInfo (MsgTotalPages (upload_name file) total_pages)) ;;
  num_expected_files <- lift (math_ceil_div total_pages (pages_per_split r)) ;;
  if negb (num_expected_files =? len output_filenames) then
    emit (StError MsgNameCountMismatch) ;;
    emit (StError (MsgExpectedProvided num_expected_files
                                       (len output_filenames)))
  else
    let output_dir := os_path_join (temp_dir env) (lit "output") in
    emit (MakeDirs output_dir) ;;
    generated_files <-
      match output_format r with
      | pdf =>
          emit (StWrite MsgSplitting) ;;
          split_to_pdf reader total_pages (pages_per_split r)
                       output_filenames output_dir
      | jpg =>
          emit (StWrite MsgConverting) ;;
          convert_to_jpg input_pdf_path total_pages
                         output_filenames output_dir
      end ;;
    package generated_files.

Definition handler (r : request) : M unit :=
  match uploaded_file r with
  | Some file =>
      let output_filenames := parse_names (custom_names_text r) in
      if button r then
        if negb (truthy output_filenames) then emit (StError MsgNoNames)
        else
          try_except
            (with_temp_dir (temp_dir env) (process r file output_filenames))
            (fun e => emit (StError (MsgSevere e)))
      else ret tt
  | None => emit (StInfo MsgPleaseUpload)
  end.

(** ** Views of a run used by the statements *)

(** The PDF units written, in order: path and pages. *)
Fixpoint pdf_units (t : list event) : list (str * list Page) :=
  match t with
  | [] => []
  | FileWrite path (PdfPages pages) :: t' => (path, pages) :: pdf_units t'
  | _ :: t' => pdf_units t'
  end.

(** The images written, in order: path and image. *)
Fixpoint jpg_units (t : list event) : list (str * Image) :=
  match t with
  | [] => []
  | FileWrite path (JpegImage image) :: t' => (path, image) :: jpg_units t'
  | _ :: t' => jpg_units t'
  end.

(** The member names of the archive, in the order they were added. *)
Fixpoint archive_members (t : list event) : list str :=
  match t with
  | [] => []
  | ZipWrite _ arcname :: t' => arcname :: archive_members t'
  | _ :: t' => archive_members t'
  end.

(** An output of the request: a unit file, the output directory, the
    archive or one of its members.  The copy of the upload is not. *)
Definition is_output (e : event) : bool :=
  match e with
  | FileWrite _ (PdfPages _) | FileWrite _ (JpegImage _) => true
  | MakeDirs _ | ZipOpen _ | ZipWrite _ _ => true
  | _ => false
  end.

Definition outputs (t : list event) : list event := filter is_output t.

(** A run reports a failure when it raises or shows an error. *)
Definition is_error (e : event) : bool :=
  match e with StError _ => true | _ => false end.

Definition fails {A} (m : M A) : bool :=
  match outcome m with
  | Raise _ => true
  | Ok _ => existsb is_error (events m)
  end.

End Core.

Arguments UploadedBytes {Page Image} buffer.
Arguments PdfPages {Page Image} pages.
Arguments JpegImage {Page Image} image.
Arguments StError {Page Image} m.
Arguments StWarning {Page Image} m.
Arguments StInfo {Page Image} m.
Arguments StWrite {Page Image} m.
Arguments StSuccess {Page Image}.
Arguments StDownloadButton {Page Image} data file_name.
Arguments FileWrite {Page Image} path c.
Arguments MakeDirs {Page Image} path.
Arguments ZipOpen {Page Image} zip_path.
Arguments ZipWrite {Page Image} file arcname.
Arguments TempDirRemoved {Page Image} path.
Arguments convert_from_path {Page Image} e.
Arguments PdfReader {Page Image} e.
Arguments writable {Page Image} e.
Arguments write_error {Page Image} e.
Arguments temp_dir {Page Image} e.
Arguments ret {Page Image A} a.
Arguments bind {Page Image A B} m f.
Arguments emit {Page Image} e.
Arguments lift {Page Image A} r.
Arguments events {Page Image A} m.
Arguments outcome {Page Image A} m.
Arguments try_except {Page Image A} m h.
Arguments with_temp_dir {Page Image A} d m.
Arguments for_each {Page Image X S} xs body s.
Arguments write_file {Page Image} env path c.
Arguments split_body {Page Image} env reader total_pages pages_per_split
  output_filenames output_dir i locals.
Arguments split_to_pdf {Page Image} env reader total_pages pages_per_split
  output_filenames output_dir.
Arguments convert_body {Page Image} env images output_filenames output_dir
  i generated_files.
Arguments convert_to_jpg {Page Image} env pdf_path total_pages
  output_filenames output_dir.
Arguments package {Page Image} env generated_files.
Arguments process {Page Image} env r file output_filenames.
Arguments handler {Page Image} env r.
Arguments pdf_units {Page Image} t.
Arguments jpg_units {Page Image} t.
Arguments archive_members {Page Image} t.
Arguments is_output {Page Image} e.
Arguments outputs {Page Image} t.
Arguments is_error {Page Image} e.
Arguments fails {Page Image A} m.

(** ** Shapes the statements speak of *)

(** A string that does not begin with white space. *)
Definition clean_head (s : str) : Prop :=
  match s with
  | [] => True
  | c :: _ => isspace c = false
  end.

(** A string with no white space at either end. *)
Definition trimmed (s : str) : Prop := clean_head s /\ clean_head (rev s).

(** [l[start:stop]] for [0 <= start <= stop]. *)
Definition slice {A} (l : list A) (start stop : Z) : list A :=
  firstn (Z.to_nat (stop - start)) (skipn (Z.to_nat start) l).

(** The path both core functions write unit [name] to. *)
Definition unit_path (output_dir name : str) (extension : string) : str :=
  os_path_join output_dir (name ++ lit extension).

(** What one round of the loop of [split_to_pdf] does for unit [k]
    when nothing fails. *)
Definition pdf_unit_events {Page Image} (reader : list Page)
    (total_pages pages_per_split : Z) (names : list str) (output_dir : str)
    (k : nat) : list (event Page Image) :=
  let start_page := Z.of_nat k * pages_per_split in
  let end_page := Z.min (start_page + pages_per_split) total_pages in
  let output_filename := nth k names [] ++ lit ".pdf" in
  [FileWrite (os_path_join output_dir output_filename)
             (PdfPages (slice reader start_page end_page));
   StWrite (MsgGeneratedPdf output_filename (start_page + 1) end_page)].

(** What the loop of [convert_to_jpg] does for the pages from number
    [k] on, given the path and image of each, when nothing fails. *)
Fixpoint jpg_events {Page Image} (k : nat) (output_dir : str)
    (units : list (str * Image)) : list (event Page Image) :=
  match units with
  | [] => []
  | (name, image) :: rest =>
      FileWrite (unit_path output_dir name ".jpg") (JpegImage image)
      :: StWrite (MsgGeneratedJpg (name ++ lit ".jpg") (Z.of_nat k + 1))
      :: jpg_events (S k) output_dir rest
  end.

(** Every unit file of [names] can be written. *)
Definition units_writable {Page Image} (env : Env Page Image)
    (output_dir : str) (names : list str) (extension : string) : Prop :=
  forall name, In name names ->
    writable env (unit_path output_dir name extension) = true.



(** Lines 13-17, run each time the script runs: the import of
    pdf2image, with its error message when the import fails. *)
Definition import_guard {Page Image} (env : Env Page Image)
    : M Page Image unit :=
  match convert_from_path env with
  | Some _ => ret tt
  | None => emit (StError MsgPdf2imageMissing)
  end.

(** One run of the script: the import guard, then the handler.  The
    page set-up, the title, the sidebar widgets and the footer (lines
    67-99 and 166-167) show no error, warning or success message and
    are left out. *)
Definition script {Page Image} (env : Env Page Image) (r : request)
    : M Page Image unit :=
  bind (import_guard env) (fun _ => handler env r).

(** The page ranges the progress lines of [split_to_pdf] announce, in
    order: first and last page of each unit, counted from 1. *)
Fixpoint page_ranges {Page Image} (t : list (event Page Image))
    : list (Z * Z) :=
  match t with
  | [] => []
  | StWrite (MsgGeneratedPdf _ first_page last_page) :: t' =>
      (first_page, last_page) :: page_ranges t'
  | _ :: t' => page_ranges t'
  end.

(** The ranges, none of them empty, follow one another without gap or
    overlap from page [from] to page [upto]. *)
Fixpoint tiles (from : Z) (ranges : list (Z * Z)) (upto : Z) : Prop :=
  match ranges with
  | [] => from = upto + 1
  | (first_page, last_page) :: rest =>
      first_page = from /\ first_page <= last_page
      /\ tiles (last_page + 1) rest upto
  end.

(** An event of unit generation: a unit file written, a progress line
    or the page-count warning. *)
Definition is_unit_event {Page Image} (e : event Page Image) : bool :=
  match e with
  | FileWrite _ (PdfPages _) | FileWrite _ (JpegImage _) => true
  | StWrite _ | StWarning _ => true
  | _ => false
  end.

(** An event of the packaging step. *)
Definition is_archive_event {Page Image} (e : event Page Image) : bool :=
  match e with
  | ZipOpen _ | ZipWrite _ _ | StSuccess | StDownloadButton _ _ => true
  | _ => false
  end.

Definition is_cleanup {Page Image} (e : event Page Image) : bool :=
  match e with TempDirRemoved _ => true | _ => false end.

(** An event that belongs neither to packaging nor to the cleanup. *)
Definition before_archive {Page Image} (e : event Page Image) : bool :=
  negb (is_archive_event e) && negb (is_cleanup e).

(** Such an event that is not an error message either. *)
Definition quiet {Page Image} (e : event Page Image) : bool :=
  before_archive e && negb (is_error e).

(** What [package] does for a non-empty list when the archive can be
    created. *)
Definition package_events {Page Image} (env : Env Page Image)
    (generated_files : list str) : list (event Page Image) :=
  let zip_path := os_path_join (temp_dir env) zip_file_name in
  ZipOpen zip_path
  :: map (fun file => ZipWrite file (os_path_basename file)) generated_files
  ++ [StSuccess; StDownloadButton zip_path zip_file_name].

(** ** A fixture: pages and images are numbered, every write succeeds *)

Module Fixture.

Definition healthy (images : list nat) (pages : list nat) : Env nat nat :=
  {| convert_from_path := Some (fun _ => Ok images);
     PdfReader := fun _ => Ok pages;
     writable := fun _ => true;
     write_error := fun _ => FailOSError;
     temp_dir := lit "/tmp/t" |}.

Definition no_renderer (pages : list nat) : Env nat nat :=
  {| convert_from_path := None;
     PdfReader := fun _ => Ok pages;
     writable := fun _ => true;
     write_error := fun _ => FailOSError;
     temp_dir := lit "/tmp/t" |}.

Definition five_pages : list nat := [1; 2; 3; 4; 5]%nat.

Definition env5 : Env nat nat := healthy [] five_pages.

Definition out : str := lit "/tmp/t/output".

Definition abc : list str := [lit "a"; lit "b"; lit "c"].

Definition xyz : list str := [lit "x"; lit "y"; lit "z"].

Definition env3 : Env nat nat := healthy [10; 20; 30]%nat [1; 2; 3]%nat.

(** An environment in which [open] refuses the paths that hold a NUL
    character, with [ValueError]; every other write succeeds. *)
Definition refuses_nul (pages : list nat) : Env nat nat :=
  {| convert_from_path := Some (fun _ => Ok []);
     PdfReader := fun _ => Ok pages;
     writable := fun q => negb (existsb (N.eqb 0) q);
     write_error := fun _ => FailValueError;
     temp_dir := lit "/tmp/t" |}.

(** The name "b" followed by a NUL character. *)
Definition b_nul : str := lit "b" ++ [0%N].

(** An environment whose PDF parser rejects every file. *)
Definition unreadable : Env nat nat :=
  {| convert_from_path := None;
     PdfReader := fun _ => Raise LibraryError;
     writable := fun _ => true;
     write_error := fun _ => FailOSError;
     temp_dir := lit "/tmp/t" |}.

Definition doc : upload :=
  {| upload_name := lit "in.pdf"; getbuffer := [37; 80; 68; 70]%N |}.

Definition lines (names : list str) : str := PyStr.join newline names.

Definition req (f : format) (n : Z) (names : list str) : request :=
  {| uploaded_file := Some doc;
     output_format := f;
     number_input := n;
     custom_names_text := lines names;
     button := true |}.

End Fixture.

(** * Properties *)

(** ** Strings *)

Lemma lstrip_nil_iff (s : str) : lstrip s = [] <-> is_blank s = true.
Proof.
  unfold is_blank.
  induction s as [|c s IH]; simpl.
  - tauto.
  - destruct (isspace c); simpl.
    + exact IH.
    + split; discriminate.
Qed.

Lemma lstrip_clean_head (s : str) : clean_head (lstrip s).
Proof.
  induction s as [|c s IH]; simpl; [exact I|].
  destruct (isspace c) eqn:E; [exact IH|].
  simpl. exact E.
Qed.

(** [lstrip] drops a blank prefix and nothing else. *)
Lemma lstrip_suffix (s : str) :
  exists p, s = p ++ lstrip s /\ is_blank p = true.
Proof.
  induction s as [|c s [p [Hs Hp]]]; simpl.
  - exists []. split; reflexivity.
  - destruct (isspace c) eqn:E.
    + exists (c :: p). simpl. unfold is_blank in *. simpl.
      rewrite E, Hp. split; [congruence|reflexivity].
    + exists []. split; reflexivity.
Qed.

Lemma is_blank_app (a b : str) :
  is_blank (a ++ b) = is_blank a && is_blank b.
Proof. unfold is_blank. apply forallb_app. Qed.

Lemma is_blank_rev (s : str) : is_blank (rev s) = is_blank s.
Proof.
  induction s as [|c s IH]; [reflexivity|].
  simpl rev. rewrite is_blank_app, IH. unfold is_blank. simpl.
  rewrite andb_true_r. apply andb_comm.
Qed.

Lemma rstrip_nil_iff (s : str) : rstrip s = [] <-> is_blank s = true.
Proof.
  unfold rstrip. rewrite <- is_blank_rev, <- lstrip_nil_iff.
  split; intros H.
  - apply (f_equal (@rev char)) in H. rewrite rev_involutive in H. exact H.
  - rewrite H. reflexivity.
Qed.

Lemma clean_head_not_blank (s : str) :
  clean_head s -> s <> [] -> is_blank s = false.
Proof.
  destruct s as [|c s]; simpl; [congruence|].
  intros E _. unfold is_blank. simpl. rewrite E. reflexivity.
Qed.

(** A line strips to the empty string exactly when it is blank. *)
Lemma strip_truthy (s : str) : truthy (strip s) = negb (is_blank s).
Proof.
  unfold strip.
  destruct (is_blank s) eqn:B; simpl.
  - apply lstrip_nil_iff in B. rewrite B. reflexivity.
  - destruct (rstrip (lstrip s)) eqn:R; [|reflexivity].
    apply rstrip_nil_iff in R.
    destruct (lstrip s) eqn:L.
    + apply lstrip_nil_iff in L. congruence.
    + rewrite clean_head_not_blank in R; [discriminate| |discriminate].
      rewrite <- L. apply lstrip_clean_head.
Qed.

Lemma rstrip_prefix (s : str) :
  exists q, s = rstrip s ++ q /\ is_blank q = true.
Proof.
  unfold rstrip.
  destruct (lstrip_suffix (rev s)) as [p [Hs Hp]].
  exists (rev p). split.
  - rewrite <- rev_app_distr, <- Hs, rev_involutive. reflexivity.
  - rewrite is_blank_rev. exact Hp.
Qed.

Lemma rstrip_keeps_clean_head (s : str) :
  clean_head s -> clean_head (rstrip s).
Proof.
  intros H. destruct (rstrip_prefix s) as [q [Hs _]].
  destruct (rstrip s) as [|c r]; [exact I|].
  rewrite Hs in H. exact H.
Qed.

Lemma strip_trimmed (s : str) : trimmed (strip s).
Proof.
  unfold trimmed, strip. split.
  - apply rstrip_keeps_clean_head, lstrip_clean_head.
  - unfold rstrip at 1. rewrite rev_involutive. apply lstrip_clean_head.
Qed.

Lemma split_not_nil (sep : char) (s : str) : split sep s <> [].
Proof.
  induction s as [|c s IH]; simpl; [discriminate|].
  destruct (c =? sep)%N; [discriminate|].
  destruct (split sep s); discriminate.
Qed.

(** Joining the pieces with the separator gives the text back. *)
Lemma join_split (sep : char) (s : str) : PyStr.join sep (split sep s) = s.
Proof.
  induction s as [|c s IH]; [reflexivity|].
  simpl split.
  destruct (c =? sep)%N eqn:E.
  - apply N.eqb_eq in E. subst c.
    pose proof (split_not_nil sep s) as Hne.
    simpl. destruct (split sep s) as [|p ps]; [congruence|].
    simpl in *. rewrite IH. reflexivity.
  - destruct (split sep s) as [|p ps] eqn:Sp.
    + exfalso. revert Sp. apply split_not_nil.
    + simpl in *. destruct ps; simpl in *; rewrite <- IH; reflexivity.
Qed.

(** No piece holds the separator. *)
Lemma split_pieces_free (sep : char) (s : str) :
  Forall (fun piece => ~ In sep piece) (split sep s).
Proof.
  induction s as [|c s IH]; simpl.
  - constructor; [intros []|constructor].
  - destruct (c =? sep)%N eqn:E.
    + constructor; [intros []|exact IH].
    + apply N.eqb_neq in E.
      destruct (split sep s) as [|p ps].
      * constructor; [|constructor]. simpl. intros [H|[]]. congruence.
      * inversion IH as [|? ? Hp Hps]; subst.
        constructor; [|exact Hps].
        simpl. intros [H|H]; [congruence|exact (Hp H)].
Qed.

Lemma names_of_lines_spec (lines : list str) :
  names_of_lines lines =
  map strip (filter (fun line => negb (is_blank line)) lines).
Proof.
  induction lines as [|l ls IH]; [reflexivity|].
  simpl. rewrite strip_truthy.
  destruct (is_blank l); simpl; rewrite IH; reflexivity.
Qed.

(** ** Arithmetic of the partition *)

(** [math_ceil_div] is the ceiling of the quotient. *)
Lemma math_ceil_div_bounds (a b n : Z) :
  0 < b -> math_ceil_div a b = Ok n -> (n - 1) * b < a <= n * b.
Proof.
  unfold math_ceil_div. intros Hb.
  destruct (b =? 0) eqn:E; [apply Z.eqb_eq in E; lia|].
  intros [= <-].
  pose proof (Z.div_mod (- a) b ltac:(lia)) as Hdm.
  pose proof (Z.mod_pos_bound (- a) b Hb) as Hr.
  nia.
Qed.

Lemma math_ceil_div_unique (a b n : Z) :
  0 < b -> (n - 1) * b < a <= n * b -> math_ceil_div a b = Ok n.
Proof.
  unfold math_ceil_div. intros Hb Hn.
  destruct (b =? 0) eqn:E; [apply Z.eqb_eq in E; lia|].
  f_equal.
  pose proof (Z.div_mod (- a) b ltac:(lia)) as Hdm.
  pose proof (Z.mod_pos_bound (- a) b Hb) as Hr.
  nia.
Qed.

(** The loop of [split_to_pdf] runs once per expected file. *)
Lemma range_length_ceil (total step n : Z) :
  0 < total -> 0 < step -> math_ceil_div total step = Ok n ->
  range_length 0 total step = n.
Proof.
  intros Ht Hs Hn. apply math_ceil_div_bounds in Hn; [|exact Hs].
  unfold range_length.
  destruct (0 <? step) eqn:E1; [|apply Z.ltb_ge in E1; lia].
  destruct (0 <? total) eqn:E2; [|apply Z.ltb_ge in E2; lia].
  pose proof (Z.div_mod (total - 0 - 1) step ltac:(lia)) as Hdm.
  pose proof (Z.mod_pos_bound (total - 0 - 1) step Hs) as Hr.
  nia.
Qed.

(** ** Sequences *)

Lemma skipn_nth_error {A} (l : list A) (i : nat) (x : A) :
  nth_error l i = Some x -> skipn i l = x :: skipn (S i) l.
Proof.
  revert l. induction i as [|i IH]; intros [|y l]; simpl; try discriminate.
  - intros [= ->]. reflexivity.
  - intros H. apply IH in H. exact H.
Qed.

Lemma getitem_nat {A} (l : list A) (i : nat) (x : A) :
  nth_error l i = Some x -> getitem l (Z.of_nat i) = Ok x.
Proof.
  intros H. unfold getitem.
  destruct (Z.of_nat i <? 0) eqn:E; [apply Z.ltb_lt in E; lia|].
  rewrite E, Nat2Z.id, H. reflexivity.
Qed.

Lemma getitem_past_end {A} (l : list A) (i : Z) :
  len l <= i -> getitem l i = Raise IndexError.
Proof.
  unfold getitem, len. intros H.
  destruct (i <? 0) eqn:E; [apply Z.ltb_lt in E; lia|].
  rewrite E.
  destruct (nth_error l (Z.to_nat i)) eqn:N; [|reflexivity].
  assert (Hlt : (Z.to_nat i < length l)%nat).
  { apply nth_error_Some. congruence. }
  lia.
Qed.

Lemma nth_error_nth_in {A} (l : list A) (i : nat) (d : A) :
  (i < length l)%nat -> nth_error l i = Some (nth i l d).
Proof. intros H. apply nth_error_nth'. exact H. Qed.

(** Fetching a run of consecutive indices gives that run of the list. *)
Lemma fetch_run {A} (l : list A) (n j : nat) :
  (j + n <= length l)%nat ->
  fetch l (map (fun k => Z.of_nat j + Z.of_nat k) (seq 0 n)) =
  Ok (firstn n (skipn j l)).
Proof.
  revert j. induction n as [|n IH]; intros j Hj; [reflexivity|].
  cbn [seq map]. rewrite <- seq_shift, map_map.
  destruct (nth_error l j) as [x|] eqn:Hx.
  2:{ apply nth_error_None in Hx. lia. }
  replace (Z.of_nat j + Z.of_nat 0) with (Z.of_nat j) by lia.
  simpl fetch. rewrite (getitem_nat _ _ _ Hx).
  rewrite (map_ext _ (fun k => Z.of_nat (S j) + Z.of_nat k)) by (intros; lia).
  rewrite IH by lia.
  rewrite (skipn_nth_error _ _ _ Hx). reflexivity.
Qed.

Lemma fetch_range2 {A} (l : list A) (start stop : Z) :
  0 <= start -> stop <= len l ->
  fetch l (range2 start stop) = Ok (slice l start stop).
Proof.
  intros Hs He. unfold range2, slice, len in *.
  destruct (Z.to_nat (stop - start)) as [|n] eqn:En; [reflexivity|].
  rewrite <- En.
  rewrite (map_ext _ (fun k => Z.of_nat (Z.to_nat start) + Z.of_nat k))
    by (intros; lia).
  apply fetch_run. lia.
Qed.

Lemma firstn_plus {A} (n m : nat) (l : list A) :
  firstn (n + m) l = firstn n l ++ firstn m (skipn n l).
Proof.
  revert l. induction n as [|n IH]; intros [|x l]; simpl;
    try reflexivity.
  - destruct m; reflexivity.
  - rewrite IH. reflexivity.
Qed.

(** Consecutive slices glue. *)
Lemma slice_app {A} (l : list A) (a b c : Z) :
  0 <= a <= b -> b <= c ->
  slice l a b ++ slice l b c = slice l a c.
Proof.
  intros Hab Hbc. unfold slice.
  replace (Z.to_nat (c - a)) with (Z.to_nat (b - a) + Z.to_nat (c - b))%nat
    by lia.
  rewrite firstn_plus. f_equal.
  rewrite skipn_skipn. do 2 f_equal. lia.
Qed.

Lemma slice_all {A} (l : list A) : slice l 0 (len l) = l.
Proof.
  unfold slice, len. simpl skipn.
  replace (Z.to_nat (Z.of_nat (length l) - 0)) with (length l) by lia.
  apply firstn_all.
Qed.

(** ** Running computations *)

Section Runs.

Context {Page Image : Type}.
Let M := M Page Image.

Lemma bind_ok {A B} (m : M A) (f : A -> M B) t a :
  m = (t, Ok a) -> bind m f = (t ++ events (f a), outcome (f a)).
Proof. intros ->. unfold bind, events, outcome. destruct (f a). reflexivity. Qed.

Lemma outcome_bind_not {A B} (m : M A) (f : A -> M B) (e : exn) :
  outcome m <> Raise e ->
  (forall a, outcome m = Ok a -> outcome (f a) <> Raise e) ->
  outcome (bind m f) <> Raise e.
Proof.
  destruct m as [t [a|e']]; unfold outcome; simpl; intros Hm Hf.
  - specialize (Hf a eq_refl). destruct (f a). exact Hf.
  - congruence.
Qed.

Lemma for_each_app {X S} (xs ys : list X) (body : X -> S -> M S) (s : S) :
  for_each (xs ++ ys) body s =
  bind (for_each xs body s) (for_each ys body).
Proof.
  revert s. induction xs as [|x xs IH]; intros s; simpl.
  - unfold bind, ret. destruct (for_each ys body s). reflexivity.
  - destruct (body x s) as [t [s'|e]]; simpl; [|reflexivity].
    rewrite IH.
    destruct (for_each xs body s') as [t1 [s1|e1]]; simpl.
    + destruct (for_each ys body s1). rewrite app_assoc. reflexivity.
    + reflexivity.
Qed.

End Runs.

(** ** [split_to_pdf] *)

Section Split.

Context {Page Image : Type} (env : Env Page Image).
Variables (reader : list Page) (total_pages pages_per_split : Z).
Variables (names : list str) (output_dir : str).

(** The chunk size is positive and [total_pages] does not exceed the
    number of pages the reader holds (the handler passes their number). *)
Hypothesis step_pos : 0 < pages_per_split.
Hypothesis pages_exist : total_pages <= len reader.

Let body := split_body env reader total_pages pages_per_split names output_dir.
Let path_of (k : nat) : str := unit_path output_dir (nth k names []) ".pdf".
Let starts (a m : nat) : list Z :=
  map (fun k => 0 + Z.of_nat k * pages_per_split) (seq a m).

(** One round, for a file index that has a name. *)
Lemma split_body_run (a : nat) (generated_files : list str) :
  (a < length names)%nat ->
  body (0 + Z.of_nat a * pages_per_split) (generated_files, Z.of_nat a) =
  if writable env (path_of a)
  then (pdf_unit_events reader total_pages pages_per_split names output_dir a,
        Ok (generated_files ++ [path_of a], Z.of_nat (S a)))
  else ([], Raise (exn_of_write_failure (write_error env (path_of a)))).
Proof.
  intros Ha. unfold body, split_body, path_of, unit_path.
  rewrite fetch_range2 by lia.
  rewrite (getitem_nat names a (nth a names [])) by (now apply nth_error_nth_in).
  unfold write_file, lift, emit, ret, bind. simpl.
  destruct (writable env _); [|reflexivity].
  unfold pdf_unit_events. simpl.
  repeat f_equal. lia.
Qed.

(** The loop, when every unit can be written. *)
Lemma split_loop_run (m a : nat) (generated_files : list str) :
  (a + m <= length names)%nat ->
  units_writable env output_dir names ".pdf" ->
  for_each (starts a m) body (generated_files, Z.of_nat a) =
  (flat_map (pdf_unit_events reader total_pages pages_per_split
                             names output_dir) (seq a m),
   Ok (generated_files ++ map path_of (seq a m), Z.of_nat (a + m))).
Proof.
  intros Hm Hw. revert a generated_files Hm.
  induction m as [|m IH]; intros a gf Hm.
  - simpl. rewrite app_nil_r, Nat.add_0_r. reflexivity.
  - unfold starts. cbn [seq map for_each flat_map].
    pose proof (split_body_run a gf ltac:(lia)) as Hb.
    unfold path_of at 1 in Hb.
    rewrite (Hw (nth a names [])) in Hb by (apply nth_In; lia).
    rewrite (bind_ok _ _ _ _ Hb).
    fold (starts (S a) m). rewrite IH by lia.
    unfold events, outcome. cbn [fst snd].
    rewrite <- app_assoc. cbn [app].
    replace (S a + m)%nat with (a + S m)%nat by lia. reflexivity.
Qed.

(** The loop never reads past the end of a sequence, whatever the file
    system does. *)
Lemma split_loop_in_bounds (m a : nat) (generated_files : list str) :
  (a + m <= length names)%nat ->
  outcome (for_each (starts a m) body (generated_files, Z.of_nat a))
  <> Raise IndexError.
Proof.
  revert a generated_files.
  induction m as [|m IH]; intros a gf Hm; [discriminate|].
  unfold starts. cbn [seq map for_each]. fold (starts (S a) m).
  pose proof (split_body_run a gf ltac:(lia)) as Hb.
  apply outcome_bind_not; rewrite Hb; destruct (writable env (path_of a));
    unfold outcome; cbn [snd]; try discriminate;
    try (destruct (write_error env (path_of a)); discriminate).
  intros s' [= <-]. apply IH. lia.
Qed.

Lemma pdf_units_rounds (ks : list nat) :
  pdf_units (Image := Image)
    (flat_map (pdf_unit_events reader total_pages pages_per_split
                               names output_dir) ks) =
  map (fun k => (path_of k,
                 slice reader (Z.of_nat k * pages_per_split)
                       (Z.min (Z.of_nat k * pages_per_split + pages_per_split)
                              total_pages))) ks.
Proof.
  induction ks as [|k ks IH]; [reflexivity|].
  cbn [flat_map map]. unfold pdf_unit_events at 1. cbn [app pdf_units].
  rewrite IH. reflexivity.
Qed.

Lemma map_nth_seq {A B} (f : A -> B) (l : list A) (d : A) :
  map (fun k => f (nth k l d)) (seq 0 (length l)) = map f l.
Proof.
  induction l as [|x l IH]; [reflexivity|].
  cbn [length seq map nth]. rewrite <- seq_shift, map_map.
  cbn [nth]. rewrite IH. reflexivity.
Qed.

(** The handler's check has passed: there are pages, and as many names
    as [math.ceil(total_pages / pages_per_split)]. *)
Hypothesis total_pos : 0 < total_pages.
Hypothesis names_match :
  math_ceil_div total_pages pages_per_split = Ok (len names).

Lemma chunk_starts_run :
  range3 0 total_pages pages_per_split = Ok (starts 0 (length names)).
Proof.
  unfold range3.
  destruct (pages_per_split =? 0) eqn:E; [apply Z.eqb_eq in E; lia|].
  rewrite (range_length_ceil _ _ _ total_pos step_pos names_match).
  unfold len. rewrite Nat2Z.id. reflexivity.
Qed.

(** The whole of [split_to_pdf] under the handler's check, when every
    unit can be written. *)
Lemma split_to_pdf_run :
  units_writable env output_dir names ".pdf" ->
  split_to_pdf env reader total_pages pages_per_split names output_dir =
  (flat_map (pdf_unit_events reader total_pages pages_per_split
                             names output_dir) (seq 0 (length names)),
   Ok (map (fun name => unit_path output_dir name ".pdf") names)).
Proof.
  intros Hw. unfold split_to_pdf. rewrite chunk_starts_run.
  unfold lift. cbn [bind app].
  change 0 with (Z.of_nat 0) at 1.
  fold body.
  rewrite (split_loop_run (length names) 0 [] ltac:(lia) Hw).
  unfold ret. cbn [bind fst snd app]. rewrite app_nil_r.
  unfold path_of. rewrite (map_nth_seq (fun name => unit_path output_dir name ".pdf")).
  reflexivity.
Qed.

(** Gluing the first [n] chunks gives the pages up to the end of chunk
    [n]. *)
Lemma chunks_concat (n : nat) :
  concat (map (fun k => slice reader (Z.of_nat k * pages_per_split)
                          (Z.min (Z.of_nat k * pages_per_split
                                  + pages_per_split) total_pages))
              (seq 0 n)) =
  slice reader 0 (Z.min (Z.of_nat n * pages_per_split) total_pages).
Proof.
  induction n as [|n IH].
  - simpl. rewrite Z.min_l by lia. reflexivity.
  - rewrite seq_S, map_app, concat_app, IH. cbn [map concat Nat.add].
    rewrite app_nil_r.
    destruct (Z.le_ge_cases total_pages (Z.of_nat n * pages_per_split)) as [H|H].
    + rewrite (Z.min_r (Z.of_nat n * pages_per_split)) by lia.
      rewrite (Z.min_r (_ + _)) by lia.
      rewrite (Z.min_r (Z.of_nat (S n) * _)) by nia.
      unfold slice at 2. replace (Z.to_nat (total_pages - _)) with 0%nat by lia.
      apply app_nil_r.
    + rewrite (Z.min_l (Z.of_nat n * pages_per_split)) by lia.
      replace (Z.of_nat (S n) * pages_per_split)
        with (Z.of_nat n * pages_per_split + pages_per_split) by lia.
      apply slice_app; lia.
Qed.

(** C3. With a name list of the expected length and every unit file
    writable, [split_to_pdf] writes one PDF per name and returns their
    paths in order; unit [i] is written to the path of [names[i]] and
    holds exactly the pages [i*chunk, min((i+1)*chunk, total)) of the
    source, in source order. *)
Theorem split_to_pdf_unit_pages (i : Z) :
  units_writable env output_dir names ".pdf" ->
  0 <= i < len names ->
  let run :=
    split_to_pdf env reader total_pages pages_per_split names output_dir in
  outcome run = Ok (map (fun name => unit_path output_dir name ".pdf") names)
  /\ length (pdf_units (events run)) = length names
  /\ nth_error (pdf_units (events run)) (Z.to_nat i) =
     Some (unit_path output_dir (nth (Z.to_nat i) names []) ".pdf",
           slice reader (i * pages_per_split)
                 (Z.min ((i + 1) * pages_per_split) total_pages)).
Proof.
  intros Hw Hi run. subst run. rewrite (split_to_pdf_run Hw).
  unfold outcome, events. cbn [fst snd]. rewrite pdf_units_rounds.
  split; [reflexivity|]. split.
  - rewrite length_map, length_seq. reflexivity.
  - unfold len in Hi.
    rewrite nth_error_map, nth_error_seq.
    destruct (Nat.ltb_spec (Z.to_nat i) (length names)) as [_|H]; [|lia].
    cbn [option_map Nat.add]. unfold path_of.
    rewrite Z2Nat.id by lia.
    do 4 f_equal. lia.
Qed.

(** C9. Under the handler's check [split_to_pdf] never indexes out of
    range: whatever the file system does, it does not end in
    [IndexError], and when the unit files can be written it returns. *)
Theorem split_to_pdf_indices_in_bounds :
  outcome (split_to_pdf env reader total_pages pages_per_split
                        names output_dir) <> Raise IndexError
  /\ (units_writable env output_dir names ".pdf" ->
      exists generated_files,
        outcome (split_to_pdf env reader total_pages pages_per_split
                              names output_dir) = Ok generated_files).
Proof.
  split.
  - unfold split_to_pdf. rewrite chunk_starts_run.
    apply outcome_bind_not; [discriminate|].
    intros chunk_starts [= <-].
    apply outcome_bind_not; [|discriminate].
    change 0 with (Z.of_nat 0) at 1.
    apply split_loop_in_bounds. lia.
  - intros Hw. rewrite (split_to_pdf_run Hw). eexists. reflexivity.
Qed.

End Split.

(** ** The files a split leaves behind *)




Section SplitFiles.

Context {Page Image : Type} (env : Env Page Image).
Variables (reader : list Page) (total_pages pages_per_split : Z).
Variables (names : list str) (output_dir : str).

Let path_of (k : nat) : str := unit_path output_dir (nth k names []) ".pdf".
Let round_events :=
  pdf_unit_events (Image := Image) reader total_pages pages_per_split
                  names output_dir.



(** The handler's check has passed and every unit file can be written. *)
Hypothesis step_pos : 0 < pages_per_split.
Hypothesis total_pos : 0 < total_pages.
Hypothesis names_match :
  math_ceil_div total_pages pages_per_split = Ok (len names).
Hypothesis all_writable : units_writable env output_dir names ".pdf".


End SplitFiles.

(** ** [convert_to_jpg] *)

Lemma nth_error_combine {A B} (l : list A) (l' : list B) (i : nat) a b :
  nth_error l i = Some a -> nth_error l' i = Some b ->
  nth_error (combine l l') i = Some (a, b).
Proof.
  revert l l'. induction i as [|i IH]; intros [|x l] [|y l']; simpl;
    try discriminate.
  - intros [= ->] [= ->]. reflexivity.
  - apply IH.
Qed.

Section Convert.

Context {Page Image : Type} (env : Env Page Image).
Variables (images : list Image) (names : list str) (output_dir : str).

Let body := convert_body env images names output_dir.
Let path_of (name : str) : str := unit_path output_dir name ".jpg".
Let pages (a m : nat) : list Z := map (fun k => 0 + Z.of_nat k) (seq a m).

(** One round for a page that has both a name and an image. *)
Lemma convert_body_run (a : nat) (generated_files : list str) name image :
  nth_error names a = Some name ->
  nth_error images a = Some image ->
  body (0 + Z.of_nat a) generated_files =
  if writable env (path_of name)
  then (jpg_events a output_dir [(name, image)],
        Ok (generated_files ++ [path_of name]))
  else ([], Raise (exn_of_write_failure (write_error env (path_of name)))).
Proof.
  intros Hn Hi. unfold body, convert_body, path_of, unit_path.
  cbn [Z.add]. rewrite (getitem_nat _ _ _ Hn), (getitem_nat _ _ _ Hi).
  unfold write_file, lift, emit, ret, bind. simpl.
  destruct (writable env _); reflexivity.
Qed.

(** One round for a page that has a name but no image. *)
Lemma convert_body_no_image (a : nat) (generated_files : list str) :
  (a < length names)%nat -> (length images <= a)%nat ->
  body (0 + Z.of_nat a) generated_files = ([], Raise IndexError).
Proof.
  intros Hn Hi. unfold body, convert_body. cbn [Z.add].
  rewrite (getitem_nat names a (nth a names [])) by (now apply nth_error_nth_in).
  rewrite getitem_past_end by (unfold len; lia).
  reflexivity.
Qed.

(** The loop over pages that all have a name and an image. *)
Lemma convert_loop_run (m a : nat) (generated_files : list str) :
  (a + m <= length names)%nat ->
  (a + m <= length images)%nat ->
  units_writable env output_dir names ".jpg" ->
  for_each (pages a m) body generated_files =
  (jpg_events a output_dir (firstn m (skipn a (combine names images))),
   Ok (generated_files ++ map path_of (firstn m (skipn a names)))).
Proof.
  intros Hn Hi Hw. revert a generated_files Hn Hi.
  induction m as [|m IH]; intros a gf Hn Hi.
  - simpl. rewrite app_nil_r. reflexivity.
  - destruct (nth_error names a) as [name|] eqn:En.
    2:{ apply nth_error_None in En. lia. }
    destruct (nth_error images a) as [image|] eqn:Ei.
    2:{ apply nth_error_None in Ei. lia. }
    pose proof (convert_body_run a gf name image En Ei) as Hb.
    unfold path_of at 1 in Hb.
    rewrite (Hw name (nth_error_In _ _ En)) in Hb.
    unfold pages. cbn [seq map for_each]. fold (pages (S a) m).
    rewrite (bind_ok _ _ _ _ Hb), IH by lia.
    unfold events, outcome. cbn [fst snd].
    rewrite (skipn_nth_error _ _ _ (nth_error_combine _ _ _ _ _ En Ei)).
    rewrite (skipn_nth_error _ _ _ En).
    cbn [firstn map jpg_events app]. rewrite <- app_assoc. reflexivity.
Qed.

Variables (render : str -> result (list Image)) (pdf_path : str).
Variable total_pages : Z.

(** pdf2image was imported and renders [pdf_path] into [images]. *)
Hypothesis renderer_present : convert_from_path env = Some render.
Hypothesis rendered : render pdf_path = Ok images.

Let warning : list (event Page Image) :=
  if len images =? total_pages then []
  else [StWarning (MsgPageCountMismatch total_pages (len images))].

Lemma jpg_units_events (k : nat) (units : list (str * Image)) :
  jpg_units (Page := Page) (jpg_events k output_dir units) =
  map (fun u => (path_of (fst u), snd u)) units.
Proof.
  revert k. induction units as [|[name image] units IH]; intros k;
    [reflexivity|].
  cbn [jpg_events jpg_units map fst snd]. rewrite IH. reflexivity.
Qed.

Lemma convert_to_jpg_prefix :
  convert_to_jpg env pdf_path total_pages names output_dir =
  bind (warning, Ok tt)
       (fun _ => for_each (range1 (Z.min total_pages (len names))) body []).
Proof.
  unfold convert_to_jpg. rewrite renderer_present, rendered.
  unfold lift. cbn [bind app]. unfold warning, body.
  destruct (len images =? total_pages); unfold emit, ret, bind; cbn [negb];
    destruct (for_each _ _ _); reflexivity.
Qed.

(** C10. With the renderer present and at least min(total_pages,
    len(names)) images rendered, [convert_to_jpg] returns exactly that
    many paths: path [i] is that of [names[i]] with the [.jpg] suffix
    and is saved from image [i], in page order.  Further images are not
    used, and apart from the page-count warning nothing else is
    reported. *)
Theorem convert_to_jpg_healthy :
  Z.min total_pages (len names) <= len images ->
  units_writable env output_dir names ".jpg" ->
  let n := Z.to_nat (Z.min total_pages (len names)) in
  let run := convert_to_jpg env pdf_path total_pages names output_dir in
  let generated_files := map path_of (firstn n names) in
  outcome run = Ok generated_files
  /\ len generated_files = Z.max 0 (Z.min total_pages (len names))
  /\ jpg_units (events run) = combine generated_files (firstn n images)
  /\ events run = warning ++ jpg_events 0 output_dir
                               (firstn n (combine names images)).
Proof.
  intros Hi Hw n run files. subst run files.
  rewrite convert_to_jpg_prefix.
  unfold range1, range2. rewrite Z.sub_0_r. fold n. fold (pages 0 n).
  unfold len in *.
  rewrite (convert_loop_run n 0 [] ltac:(lia) ltac:(lia) Hw).
  unfold outcome, events. cbn [bind fst snd skipn app].
  repeat split.
  - rewrite length_map, length_firstn. lia.
  - assert (Hw0 : jpg_units warning = []).
    { unfold warning. destruct (_ =? _); reflexivity. }
    assert (Happ : forall t t' : list (event Page Image),
               jpg_units t = [] -> jpg_units (t ++ t') = jpg_units t').
    { induction t as [|e t IHt]; intros t' Ht; [reflexivity|].
      destruct e as [| | | | | |path c| | | |]; cbn [app jpg_units] in *;
        try (apply IHt; exact Ht).
      destruct c; cbn [app jpg_units] in *;
        try (apply IHt; exact Ht). discriminate. }
    rewrite (Happ _ _ Hw0), jpg_units_events.
    rewrite combine_firstn.
    generalize (firstn n names). generalize (firstn n images).
    intros l' l. revert l'.
    induction l as [|x l IHl]; intros [|y l']; cbn; try reflexivity.
    rewrite IHl. reflexivity.
Qed.

(** When fewer images come back than there are pages and names, the
    loop saves the images there are and then reads past the end of
    [images]. *)
Lemma convert_to_jpg_short_render :
  len images < Z.min total_pages (len names) ->
  units_writable env output_dir names ".jpg" ->
  convert_to_jpg env pdf_path total_pages names output_dir =
  (warning ++ jpg_events 0 output_dir (combine names images),
   Raise IndexError).
Proof.
  intros Hi Hw. rewrite convert_to_jpg_prefix.
  unfold range1, range2. rewrite Z.sub_0_r. unfold len in *.
  set (n := Z.to_nat _).
  replace n with (length images + S (n - S (length images)))%nat by lia.
  rewrite seq_app, map_app, for_each_app. fold (pages 0 (length images)).
  rewrite (convert_loop_run (length images) 0 [] ltac:(lia) ltac:(lia) Hw).
  cbn [seq map for_each bind skipn app Nat.add].
  rewrite convert_body_no_image by lia.
  cbn [bind]. rewrite app_nil_r.
  rewrite firstn_all2 by (rewrite length_combine; lia).
  reflexivity.
Qed.

End Convert.

(** C6. Without the rendering capability [convert_to_jpg] reports the
    condition with an error message and returns the empty list; it
    raises nothing and writes nothing. *)
Theorem convert_to_jpg_fails_closed {Page Image} (env : Env Page Image)
    (pdf_path : str) (total_pages : Z) (names : list str) (output_dir : str) :
  convert_from_path env = None ->
  convert_to_jpg env pdf_path total_pages names output_dir =
  ([StError MsgJpgUnavailable], Ok []).
Proof.
  intros Hnone. unfold convert_to_jpg. rewrite Hnone. reflexivity.
Qed.

(** ** The archive *)

Lemma take_until_free (sep : char) (s : str) : ~ In sep (take_until sep s).
Proof.
  induction s as [|c s IH]; simpl; [tauto|].
  destruct (c =? sep)%N eqn:E; simpl; [tauto|].
  apply N.eqb_neq in E. intros [H|H]; [congruence|exact (IH H)].
Qed.

(** A base name holds no slash. *)
Lemma os_path_basename_flat (p : str) : ~ In slash (os_path_basename p).
Proof.
  unfold os_path_basename. rewrite <- in_rev. apply take_until_free.
Qed.

Section Package.

Context {Page Image : Type} (env : Env Page Image).

Lemma zip_loop_run (files : list str) :
  for_each files
    (fun file (_ : unit) =>
       emit (Page := Page) (Image := Image)
            (ZipWrite file (os_path_basename file))) tt =
  (map (fun file => ZipWrite file (os_path_basename file)) files, Ok tt).
Proof.
  induction files as [|file files IH]; [reflexivity|].
  cbn [for_each map]. unfold emit at 1. cbn [bind]. rewrite IH.
  reflexivity.
Qed.

Lemma archive_members_writes (files : list str) :
  archive_members (Page := Page) (Image := Image)
    (map (fun file => ZipWrite file (os_path_basename file)) files) =
  map os_path_basename files.
Proof.
  induction files as [|file files IH]; [reflexivity|].
  cbn [map archive_members]. rewrite IH. reflexivity.
Qed.

Lemma archive_members_app (t t' : list (event Page Image)) :
  archive_members (t ++ t') = archive_members t ++ archive_members t'.
Proof.
  induction t as [|e t IH]; [reflexivity|].
  destruct e; cbn [app archive_members]; rewrite IH; reflexivity.
Qed.

(** C7. For a non-empty list of generated files the archive gets one
    member per file, in the order of the list, each under the base name
    of its path, which holds no directory part. *)
Theorem package_members (generated_files : list str) :
  generated_files <> [] ->
  writable env (os_path_join (temp_dir env) zip_file_name) = true ->
  let run := package env generated_files in
  outcome run = Ok tt
  /\ archive_members (events run) = map os_path_basename generated_files
  /\ Forall (fun member => ~ In slash member) (archive_members (events run)).
Proof.
  intros Hne Hw run.
  assert (Hrun : run =
    (ZipOpen (os_path_join (temp_dir env) zip_file_name)
     :: map (fun file => ZipWrite file (os_path_basename file)) generated_files
     ++ [StSuccess;
         StDownloadButton (os_path_join (temp_dir env) zip_file_name)
                          zip_file_name],
     Ok tt)).
  { subst run. unfold package.
    destruct generated_files as [|f fs]; [congruence|].
    cbn [truthy]. rewrite Hw. unfold emit at 1. cbn [bind].
    rewrite zip_loop_run. reflexivity. }
  rewrite Hrun. unfold outcome, events. cbn [fst snd archive_members].
  assert (Hm : archive_members (Page := Page) (Image := Image)
            (map (fun file => ZipWrite file (os_path_basename file))
                 generated_files
             ++ [StSuccess;
                 StDownloadButton (os_path_join (temp_dir env) zip_file_name)
                                  zip_file_name]) =
          map os_path_basename generated_files).
  { rewrite archive_members_app, archive_members_writes.
    cbn [archive_members]. apply app_nil_r. }
  rewrite Hm. repeat split.
  apply Forall_forall. intros member Hin.
  apply in_map_iff in Hin. destruct Hin as [p [<- _]].
  apply os_path_basename_flat.
Qed.

(** C5, as the code has it.  With no generated files the packaging step
    does nothing at all: no archive is opened, nothing is offered for
    download, and no error is reported or raised. *)
Theorem package_nothing : package env [] = ([], Ok tt).
Proof. reflexivity. Qed.

End Package.

(** ** The name-count check of the handler *)

Section Handler.

Context {Page Image : Type} (env : Env Page Image).
Variables (r : request) (file : upload) (reader : list Page).

Let names := parse_names (custom_names_text r).
Let input_pdf_path := os_path_join (temp_dir env) (upload_name file).

(** A file was uploaded, the button pressed, the upload copied into
    the temporary directory and parsed into the pages [reader]. *)
Hypothesis uploaded : uploaded_file r = Some file.
Hypothesis pressed : button r = true.
Hypothesis copy_written : writable env input_pdf_path = true.
Hypothesis parsed : PdfReader env input_pdf_path = Ok reader.

(** C1, as the code has it.  For a document of [total_pages > 0] pages,
    a chunk size [> 0] and a non-empty name list whose length differs
    from [expected], the ceiling of [total_pages / chunk], the request
    shows the name-count error with [expected] and the number of names
    given and ends there: apart from the copy of the upload nothing is
    written, no output directory, unit file or archive. *)
Theorem handler_name_count_mismatch (expected : Z) :
  0 < len reader ->
  0 < pages_per_split r ->
  (expected - 1) * pages_per_split r < len reader
    <= expected * pages_per_split r ->
  names <> [] ->
  len names <> expected ->
  handler env r =
    ([FileWrite input_pdf_path (UploadedBytes (getbuffer file));
      StInfo (MsgTotalPages (upload_name file) (len reader));
      StError MsgNameCountMismatch;
      StError (MsgExpectedProvided expected (len names));
      TempDirRemoved (temp_dir env)],
     Ok tt)
  /\ outputs (events (handler env r)) = [].
Proof.
  intros Htotal Hchunk Hceil Hne Hdiff.
  assert (Hrun : handler env r =
    ([FileWrite input_pdf_path (UploadedBytes (getbuffer file));
      StInfo (MsgTotalPages (upload_name file) (len reader));
      StError MsgNameCountMismatch;
      StError (MsgExpectedProvided expected (len names));
      TempDirRemoved (temp_dir env)],
     Ok tt)).
  { unfold handler. rewrite uploaded, pressed. fold names.
    assert (Htruthy : truthy names = true)
      by (destruct names; [congruence|reflexivity]).
    rewrite Htruthy. cbn [negb].
    unfold process, write_file. fold input_pdf_path.
    rewrite copy_written, parsed.
    unfold emit, lift. cbn [bind app].
    rewrite (math_ceil_div_unique _ _ _ Hchunk Hceil). cbn [bind app].
    destruct (expected =? len names) eqn:E; [apply Z.eqb_eq in E; lia|].
    reflexivity. }
  split; [exact Hrun|].
  rewrite Hrun. reflexivity.
Qed.

End Handler.

(** ** The name list *)

(** C8, as the code has it.  The name list is made from the pieces of
    the text between line breaks, in their order: pieces that hold only
    white space are dropped, and every other piece is kept with the
    white space at its two ends removed.  Every name is non-empty and
    neither begins nor ends with white space. *)
Theorem parse_names_lines (text : str) :
  PyStr.join newline (split newline text) = text
  /\ Forall (fun line => ~ In newline line) (split newline text)
  /\ parse_names text =
       map strip (filter (fun line => negb (is_blank line))
                         (split newline text))
  /\ Forall (fun name => name <> [] /\ trimmed name) (parse_names text).
Proof.
  split; [apply join_split|].
  split; [apply split_pieces_free|].
  split; [apply names_of_lines_spec|].
  unfold parse_names. rewrite names_of_lines_spec.
  apply Forall_forall. intros name Hin.
  apply in_map_iff in Hin. destruct Hin as [line [<- Hline]].
  apply filter_In in Hline. destruct Hline as [_ Hnb].
  split; [|apply strip_trimmed].
  rewrite <- strip_truthy in Hnb.
  destruct (strip line); [discriminate|discriminate].
Qed.

(** * Scenarios

    The statements above at concrete requests, computed by the model. *)

Module Scenario.

Import Fixture.

Lemma env5_writable (names : list str) (extension : string) :
  units_writable env5 out names extension.
Proof. intros name _. reflexivity. Qed.

(** A 5-page document split by 2 under the names a, b, c: a.pdf holds
    pages 1-2, b.pdf pages 3-4 and c.pdf page 5. *)
Lemma five_by_two_units :
  nth_error (pdf_units (events (split_to_pdf env5 five_pages 5 2 abc out))) 0
    = Some (lit "/tmp/t/output/a.pdf", [1; 2]%nat)
  /\ nth_error (pdf_units (events (split_to_pdf env5 five_pages 5 2 abc out))) 1
    = Some (lit "/tmp/t/output/b.pdf", [3; 4]%nat)
  /\ nth_error (pdf_units (events (split_to_pdf env5 five_pages 5 2 abc out))) 2
    = Some (lit "/tmp/t/output/c.pdf", [5]%nat).
Proof.
  assert (H : forall i, 0 <= i < 3 ->
    nth_error (pdf_units (events (split_to_pdf env5 five_pages 5 2 abc out)))
              (Z.to_nat i) =
    Some (unit_path out (nth (Z.to_nat i) abc []) ".pdf",
          slice five_pages (i * 2) (Z.min ((i + 1) * 2) 5))).
  { intros i Hi.
    apply (split_to_pdf_unit_pages env5 five_pages 5 2 abc out);
      [lia | vm_compute; discriminate | lia | reflexivity
      | apply env5_writable | exact Hi]. }
  split; [exact (H 0 ltac:(lia))|].
  split; [exact (H 1 ltac:(lia))|exact (H 2 ltac:(lia))].
Defined.



(** That split stays in bounds and returns. *)
Lemma five_by_two_in_bounds :
  outcome (split_to_pdf env5 five_pages 5 2 abc out) <> Raise IndexError
  /\ (units_writable env5 out abc ".pdf" ->
      exists generated_files,
        outcome (split_to_pdf env5 five_pages 5 2 abc out) =
        Ok generated_files).
Proof.
  apply (split_to_pdf_indices_in_bounds env5 five_pages 5 2 abc out);
    [lia | vm_compute; discriminate | lia | reflexivity].
Defined.

(** With only the names a, b the same call, were it made, would write
    a.pdf and b.pdf and then read [output_filenames[2]]: the precondition
    of the statement above is what keeps the indices in range. *)
Lemma five_by_two_two_names :
  outcome (split_to_pdf env5 five_pages 5 2 [lit "a"; lit "b"] out) =
    Raise IndexError
  /\ map fst (pdf_units (events
       (split_to_pdf env5 five_pages 5 2 [lit "a"; lit "b"] out))) =
     [lit "/tmp/t/output/a.pdf"; lit "/tmp/t/output/b.pdf"].
Proof. split; reflexivity. Qed.

(** The same document with only the names a, b: the name-count error
    with 3 expected and 2 given, and no output. *)
Lemma five_by_two_names_short :
  handler env5 (req pdf 2 [lit "a"; lit "b"]) =
    ([FileWrite (lit "/tmp/t/in.pdf") (UploadedBytes (getbuffer doc));
      StInfo (MsgTotalPages (lit "in.pdf") 5);
      StError MsgNameCountMismatch;
      StError (MsgExpectedProvided 3 2);
      TempDirRemoved (lit "/tmp/t")],
     Ok tt)
  /\ outputs (events (handler env5 (req pdf 2 [lit "a"; lit "b"]))) = [].
Proof.
  apply (handler_name_count_mismatch env5 (req pdf 2 [lit "a"; lit "b"])
           doc five_pages);
    [reflexivity | reflexivity | reflexivity | reflexivity
    | reflexivity | reflexivity | vm_compute; split; [reflexivity|discriminate]
    | discriminate | vm_compute; discriminate].
Defined.

(** C1, a request the claim covers and the code answers otherwise: a
    5-page document, chunk size 2 and no name at all.  Three names are
    expected and none is given, yet the only message is the one asking
    for at least one name; it carries no counts. *)
Lemma handler_no_names_counterexample :
  math_ceil_div 5 2 = Ok 3
  /\ len (parse_names (custom_names_text (req pdf 2 []))) = 0
  /\ handler env5 (req pdf 2 []) = ([StError MsgNoNames], Ok tt)
  /\ ~ In (StError (MsgExpectedProvided 3 0))
          (events (handler env5 (req pdf 2 []))).
Proof.
  repeat split. cbn. intros [H|[]]. discriminate H.
Qed.

(** A 3-page document, JPG output, names x, y, z and a renderer that
    returns four images: the warning, then three files; the fourth
    image is not used. *)
Lemma three_pages_four_images :
  outcome (convert_to_jpg (healthy [10; 20; 30; 40]%nat [1; 2; 3]%nat)
                          (lit "/tmp/t/in.pdf") 3 xyz out) =
    Ok [lit "/tmp/t/output/x.jpg"; lit "/tmp/t/output/y.jpg";
        lit "/tmp/t/output/z.jpg"]
  /\ len [lit "/tmp/t/output/x.jpg"; lit "/tmp/t/output/y.jpg";
          lit "/tmp/t/output/z.jpg"] = 3
  /\ jpg_units (events
       (convert_to_jpg (healthy [10; 20; 30; 40]%nat [1; 2; 3]%nat)
                       (lit "/tmp/t/in.pdf") 3 xyz out)) =
     [(lit "/tmp/t/output/x.jpg", 10%nat); (lit "/tmp/t/output/y.jpg", 20%nat);
      (lit "/tmp/t/output/z.jpg", 30%nat)]
  /\ events (convert_to_jpg (healthy [10; 20; 30; 40]%nat [1; 2; 3]%nat)
                            (lit "/tmp/t/in.pdf") 3 xyz out) =
     [StWarning (MsgPageCountMismatch 3 4);
      FileWrite (lit "/tmp/t/output/x.jpg") (JpegImage 10%nat);
      StWrite (MsgGeneratedJpg (lit "x.jpg") 1);
      FileWrite (lit "/tmp/t/output/y.jpg") (JpegImage 20%nat);
      StWrite (MsgGeneratedJpg (lit "y.jpg") 2);
      FileWrite (lit "/tmp/t/output/z.jpg") (JpegImage 30%nat);
      StWrite (MsgGeneratedJpg (lit "z.jpg") 3)].
Proof.
  exact (convert_to_jpg_healthy
           (healthy [10; 20; 30; 40]%nat [1; 2; 3]%nat)
           [10; 20; 30; 40]%nat xyz out (fun _ => Ok [10; 20; 30; 40]%nat)
           (lit "/tmp/t/in.pdf") 3 eq_refl eq_refl
           ltac:(vm_compute; discriminate)
           ltac:(intros name _; reflexivity)).
Defined.

(** C10, a run the claim covers and the code answers otherwise: three
    pages, names x, y, z and four images.  The renderer is there and
    returns more than min(3, 3) images, yet the fourth image is not
    left out in silence: the run shows the page-count warning. *)
Lemma surplus_image_counterexample :
  Z.min 3 (len xyz) <= len [10; 20; 30; 40]%nat
  /\ In (StWarning (MsgPageCountMismatch 3 4))
        (events (convert_to_jpg (healthy [10; 20; 30; 40]%nat [1; 2; 3]%nat)
                                (lit "/tmp/t/in.pdf") 3 xyz out)).
Proof. split; [vm_compute; discriminate|left; reflexivity]. Qed.

(** C2, where the code departs from it: 3 pages, names x, y, z, and a
    renderer that returns 2 images.  The warning is shown, x.jpg and
    y.jpg are saved, and the third round reads [images[2]]: the function
    ends in [IndexError] instead of returning the two paths, and the
    request shows the catch-all error and packages nothing. *)
Theorem convert_to_jpg_fewer_images :
  convert_to_jpg (healthy [10; 20]%nat [1; 2; 3]%nat)
                 (lit "/tmp/t/in.pdf") 3 xyz out =
    ([StWarning (MsgPageCountMismatch 3 2);
      FileWrite (lit "/tmp/t/output/x.jpg") (JpegImage 10%nat);
      StWrite (MsgGeneratedJpg (lit "x.jpg") 1);
      FileWrite (lit "/tmp/t/output/y.jpg") (JpegImage 20%nat);
      StWrite (MsgGeneratedJpg (lit "y.jpg") 2)],
     Raise IndexError)
  /\ filter is_error
       (events (handler (healthy [10; 20]%nat [1; 2; 3]%nat) (req jpg 1 xyz)))
     = [StError (MsgSevere IndexError)]
  /\ archive_members
       (events (handler (healthy [10; 20]%nat [1; 2; 3]%nat) (req jpg 1 xyz)))
     = [].
Proof. repeat split. Qed.

(** Without pdf2image: the error message, the empty list, no exception. *)
Lemma no_renderer_fails_closed :
  convert_to_jpg (no_renderer [1; 2; 3]%nat) (lit "/tmp/t/in.pdf") 3 xyz out =
  ([StError MsgJpgUnavailable], Ok []).
Proof.
  apply (convert_to_jpg_fails_closed (no_renderer [1; 2; 3]%nat)).
  reflexivity.
Defined.

(** A JPG request without pdf2image: the handler shows the rasterizer's
    error and no other, and ends without an archive. *)
Lemma no_renderer_request :
  filter is_error (events (handler (no_renderer [1; 2; 3]%nat) (req jpg 1 xyz)))
    = [StError MsgJpgUnavailable]
  /\ outcome (handler (no_renderer [1; 2; 3]%nat) (req jpg 1 xyz)) = Ok tt
  /\ archive_members
       (events (handler (no_renderer [1; 2; 3]%nat) (req jpg 1 xyz))) = [].
Proof. repeat split. Qed.

(** C5, the claim at the empty list: packaging nothing does not fail. *)
Lemma package_empty_counterexample :
  fails (package env5 []) = false.
Proof. reflexivity. Qed.

(** Three generated files are archived as a.pdf, b.pdf, c.pdf. *)
Lemma package_three_files :
  archive_members (events (package env5
    [lit "/tmp/t/output/a.pdf"; lit "/tmp/t/output/b.pdf";
     lit "/tmp/t/output/c.pdf"])) =
  [lit "a.pdf"; lit "b.pdf"; lit "c.pdf"].
Proof.
  apply (package_members env5
    [lit "/tmp/t/output/a.pdf"; lit "/tmp/t/output/b.pdf";
     lit "/tmp/t/output/c.pdf"]);
    [discriminate | reflexivity].
Defined.

(** C8, a text whose only line begins with a space: the code names the
    unit "a", the list of non-blank lines holds " a". *)
Lemma parse_names_counterexample :
  parse_names (lit " a") = [lit "a"]
  /\ spec_parse_names (lit " a") = [lit " a"]
  /\ parse_names (lit " a") <> spec_parse_names (lit " a").
Proof. repeat split. discriminate. Qed.

End Scenario.

(** * Further properties of the code *)

(** ** [split_to_pdf] when the names do not match, or a write fails *)

Lemma len_slice {A} (l : list A) (start stop : Z) :
  0 <= start -> start <= stop -> stop <= len l ->
  len (slice l start stop) = stop - start.
Proof.
  unfold slice, len. intros Hs Hse He.
  rewrite length_firstn, length_skipn. lia.
Qed.

Lemma map_nth_firstn {A B} (f : A -> B) (d : A) (n : nat) (l : list A) :
  (n <= length l)%nat ->
  map (fun k => f (nth k l d)) (seq 0 n) = map f (firstn n l).
Proof.
  revert n. induction l as [|x l IH]; intros [|n] Hn; simpl in Hn;
    try reflexivity; try lia.
  cbn [seq map firstn nth]. rewrite <- seq_shift, map_map.
  cbn [nth]. rewrite IH by lia. reflexivity.
Qed.

Lemma pdf_units_paths {Page Image} (reader : list Page) (total pps : Z)
    (names : list str) (output_dir : str) (ks : list nat) :
  map fst (pdf_units (Image := Image)
             (flat_map (pdf_unit_events reader total pps names output_dir) ks))
  = map (fun k => unit_path output_dir (nth k names []) ".pdf") ks.
Proof. rewrite pdf_units_rounds, map_map. reflexivity. Qed.

Section SplitRuns.

Context {Page Image : Type} (env : Env Page Image).
Variables (reader : list Page) (total_pages pages_per_split : Z).
Variables (names : list str) (output_dir : str).

(** The chunk size is positive and [total_pages] does not exceed the
    number of pages of the reader. *)
Hypothesis step_pos : 0 < pages_per_split.
Hypothesis pages_exist : total_pages <= len reader.

Let body := split_body env reader total_pages pages_per_split names output_dir.
Let path_of (k : nat) : str := unit_path output_dir (nth k names []) ".pdf".
Let starts (a m : nat) : list Z :=
  map (fun k => 0 + Z.of_nat k * pages_per_split) (seq a m).
Let rounds : nat := Z.to_nat (range_length 0 total_pages pages_per_split).
Let round_events :=
  pdf_unit_events (Image := Image) reader total_pages pages_per_split
                  names output_dir.

(** The loop over rounds that all have a name and a writable path. *)
Lemma split_loop_prefix (m a : nat) (generated_files : list str) :
  (a + m <= length names)%nat ->
  (forall k, (a <= k < a + m)%nat -> writable env (path_of k) = true) ->
  for_each (starts a m) body (generated_files, Z.of_nat a) =
  (flat_map round_events (seq a m),
   Ok (generated_files ++ map path_of (seq a m), Z.of_nat (a + m))).
Proof.
  revert a generated_files.
  induction m as [|m IH]; intros a gf Hm Hw.
  - simpl. rewrite app_nil_r, Nat.add_0_r. reflexivity.
  - unfold starts. cbn [seq map for_each flat_map]. fold (starts (S a) m).
    pose proof (split_body_run env reader total_pages pages_per_split names
                  output_dir step_pos pages_exist a gf ltac:(lia)) as Hb.
    pose proof (Hw a ltac:(lia)) as Hwa. unfold path_of in Hwa.
    cbv beta in Hb. rewrite Hwa in Hb. fold body in Hb. rewrite (bind_ok _ _ _ _ Hb).
    rewrite IH by (try lia; intros k Hk; apply Hw; lia).
    unfold events, outcome. cbn [fst snd].
    rewrite <- app_assoc. cbn [app].
    replace (S a + m)%nat with (a + S m)%nat by lia. reflexivity.
Qed.

(** A round whose file index has no name. *)
Lemma split_body_no_name (a : nat) (generated_files : list str) :
  (length names <= a)%nat ->
  body (0 + Z.of_nat a * pages_per_split) (generated_files, Z.of_nat a) =
  ([], Raise IndexError).
Proof.
  intros Ha. unfold body, split_body.
  rewrite fetch_range2 by lia.
  rewrite getitem_past_end by (unfold len; lia).
  reflexivity.
Qed.

Lemma chunk_starts_rounds :
  range3 0 total_pages pages_per_split = Ok (starts 0 rounds).
Proof.
  unfold range3.
  destruct (pages_per_split =? 0) eqn:E; [apply Z.eqb_eq in E; lia|].
  reflexivity.
Qed.

Lemma rounds_expected (expected : Z) :
  0 < total_pages ->
  math_ceil_div total_pages pages_per_split = Ok expected ->
  Z.of_nat rounds = expected /\ 0 < expected.
Proof.
  intros Ht He. unfold rounds.
  rewrite (range_length_ceil _ _ _ Ht step_pos He).
  pose proof (math_ceil_div_bounds _ _ _ step_pos He). nia.
Qed.

(** The whole run when the first [stop] rounds go through and round
    [stop] ends in [e]. *)
Lemma split_to_pdf_stops (stop : nat) (e : exn) :
  (stop < rounds)%nat -> (stop <= length names)%nat ->
  (forall k, (k < stop)%nat -> writable env (path_of k) = true) ->
  (forall generated_files,
     body (0 + Z.of_nat stop * pages_per_split)
          (generated_files, Z.of_nat stop) = ([], Raise e)) ->
  split_to_pdf env reader total_pages pages_per_split names output_dir =
  (flat_map round_events (seq 0 stop), Raise e).
Proof.
  intros Hstop Hnames Hw Hbody.
  unfold split_to_pdf. rewrite chunk_starts_rounds.
  unfold lift. cbn [bind app]. fold body. unfold starts.
  replace rounds with (stop + S (rounds - S stop))%nat by lia.
  rewrite seq_app, map_app, for_each_app. fold (starts 0 stop).
  change 0 with (Z.of_nat 0) at 1.
  rewrite (split_loop_prefix stop 0 [] ltac:(lia))
    by (intros k Hk; apply Hw; lia).
  cbn [bind seq map for_each Nat.add app].
  rewrite Hbody. cbn [bind]. rewrite app_nil_r. reflexivity.
Qed.

(** X1. With fewer names than chunks, [split_to_pdf] writes exactly
    one unit per name and then ends in [IndexError]: unit [i] is
    written to the path of [names[i]] and holds the pages
    [i*chunk, (i+1)*chunk) of the source, so the files of the first
    [len(names)] chunks, correctly cut, exist when the exception
    arrives. *)
Theorem split_to_pdf_short_names (expected : Z) :
  0 < total_pages ->
  math_ceil_div total_pages pages_per_split = Ok expected ->
  len names < expected ->
  units_writable env output_dir names ".pdf" ->
  let run :=
    split_to_pdf env reader total_pages pages_per_split names output_dir in
  outcome run = Raise IndexError
  /\ length (pdf_units (events run)) = length names
  /\ (forall i, 0 <= i < len names ->
        nth_error (pdf_units (events run)) (Z.to_nat i) =
        Some (unit_path output_dir (nth (Z.to_nat i) names []) ".pdf",
              slice reader (i * pages_per_split)
                    ((i + 1) * pages_per_split)))
  /\ map fst (pdf_units (events run)) =
     map (fun name => unit_path output_dir name ".pdf") names
  /\ concat (map snd (pdf_units (events run))) =
     slice reader 0 (len names * pages_per_split).
Proof.
  intros Ht He Hshort Hw run.
  destruct (rounds_expected expected Ht He) as [Hr _].
  pose proof (math_ceil_div_bounds _ _ _ step_pos He) as Hb.
  assert (Hrun : run = (flat_map round_events (seq 0 (length names)),
                        Raise IndexError)).
  { subst run. unfold len in Hshort. apply split_to_pdf_stops; try lia.
    - intros k Hk. apply Hw, nth_In. exact Hk.
    - intros gf. apply split_body_no_name. lia. }
  rewrite Hrun. unfold outcome, events, round_events. cbn [fst snd].
  split; [reflexivity|]. split; [|split; [|split]].
  - rewrite pdf_units_rounds, length_map, length_seq. reflexivity.
  - intros i Hi. unfold len in Hi, Hshort.
    rewrite pdf_units_rounds, nth_error_map, nth_error_seq.
    destruct (Nat.ltb_spec (Z.to_nat i) (length names)) as [_|H]; [|lia].
    cbn [option_map Nat.add]. rewrite Z2Nat.id by lia.
    rewrite Z.min_l by nia. do 3 f_equal. lia.
  - rewrite pdf_units_paths.
    apply (map_nth_seq (fun name => unit_path output_dir name ".pdf")).
  - rewrite pdf_units_rounds, map_map. cbn [snd].
    rewrite (chunks_concat reader total_pages pages_per_split step_pos Ht).
    unfold len in *. rewrite Z.min_l by nia. reflexivity.
Qed.

(** X2. With at least as many names as chunks, [split_to_pdf] returns
    exactly [ceil(total_pages / pages_per_split)] paths, those of the
    first names in order, and never looks at the names beyond. *)
Theorem split_to_pdf_surplus_names (expected : Z) :
  0 < total_pages ->
  math_ceil_div total_pages pages_per_split = Ok expected ->
  expected <= len names ->
  units_writable env output_dir names ".pdf" ->
  let run :=
    split_to_pdf env reader total_pages pages_per_split names output_dir in
  let generated_files :=
    map (fun name => unit_path output_dir name ".pdf")
        (firstn (Z.to_nat expected) names) in
  outcome run = Ok generated_files
  /\ len generated_files = expected
  /\ map fst (pdf_units (events run)) = generated_files.
Proof.
  intros Ht He Hlen Hw run files.
  destruct (rounds_expected expected Ht He) as [Hr Hpos].
  unfold len in Hlen.
  assert (Hrun : run = (flat_map round_events (seq 0 rounds),
                        Ok (map path_of (seq 0 rounds)))).
  { subst run. unfold split_to_pdf. rewrite chunk_starts_rounds.
    unfold lift. cbn [bind app]. fold body.
    change 0 with (Z.of_nat 0) at 1.
    rewrite (split_loop_prefix rounds 0 [] ltac:(lia))
      by (intros k Hk; apply Hw, nth_In; lia).
    unfold ret. cbn [bind fst snd app]. rewrite app_nil_r. reflexivity. }
  assert (Hfiles : map path_of (seq 0 rounds) = files).
  { subst files. rewrite <- Hr, Nat2Z.id. unfold path_of.
    apply (map_nth_firstn (fun name => unit_path output_dir name ".pdf")).
    lia. }
  rewrite Hrun. unfold outcome, events, round_events. cbn [fst snd].
  split; [congruence|]. split.
  - subst files. unfold len. rewrite length_map, length_firstn. lia.
  - rewrite pdf_units_paths. exact Hfiles.
Qed.

(** X3. When the file of unit [k] cannot be written, [split_to_pdf]
    stops there with the exception of that failed write, whatever it
    is: the units before [k] are written, unit [k] and all later ones
    are not, and no paths are returned. *)
Theorem split_to_pdf_write_failure (k : nat) :
  0 < total_pages ->
  math_ceil_div total_pages pages_per_split = Ok (len names) ->
  (k < length names)%nat ->
  (forall j, (j < k)%nat -> writable env (path_of j) = true) ->
  writable env (path_of k) = false ->
  let run :=
    split_to_pdf env reader total_pages pages_per_split names output_dir in
  outcome run = Raise (exn_of_write_failure (write_error env (path_of k)))
  /\ map fst (pdf_units (events run)) =
     map (fun name => unit_path output_dir name ".pdf") (firstn k names).
Proof.
  intros Ht He Hk Hw Hfail run.
  destruct (rounds_expected _ Ht He) as [Hr _]. unfold len in Hr.
  assert (Hrun : run =
    (flat_map round_events (seq 0 k),
     Raise (exn_of_write_failure (write_error env (path_of k))))).
  { subst run. apply split_to_pdf_stops; try lia; [exact Hw|].
    intros gf. unfold body.
    rewrite (split_body_run env reader total_pages pages_per_split names
               output_dir step_pos pages_exist k gf Hk).
    cbv beta. unfold path_of in Hfail. rewrite Hfail. reflexivity. }
  rewrite Hrun. unfold outcome, events, round_events. cbn [fst snd].
  split; [reflexivity|].
  rewrite pdf_units_paths.
  apply (map_nth_firstn (fun name => unit_path output_dir name ".pdf")). lia.
Qed.

End SplitRuns.

(** ** The shape of a successful split *)

Lemma page_ranges_rounds {Page Image} (reader : list Page) (total pps : Z)
    (names : list str) (output_dir : str) (ks : list nat) :
  page_ranges (Image := Image)
    (flat_map (pdf_unit_events reader total pps names output_dir) ks) =
  map (fun k => (Z.of_nat k * pps + 1, Z.min (Z.of_nat k * pps + pps) total))
      ks.
Proof.
  induction ks as [|k ks IH]; [reflexivity|].
  cbn [flat_map map]. unfold pdf_unit_events at 1. cbn [app page_ranges].
  rewrite IH. reflexivity.
Qed.

(** The ranges of the rounds [a, a + m) tile what is left after the
    rounds before [a], when [a + m] rounds cover the document. *)
Lemma rounds_tile (total pps : Z) (m a : nat) :
  0 < pps -> 0 < total ->
  (Z.of_nat (a + m) - 1) * pps < total <= Z.of_nat (a + m) * pps ->
  tiles (Z.min (Z.of_nat a * pps) total + 1)
        (map (fun k => (Z.of_nat k * pps + 1,
                        Z.min (Z.of_nat k * pps + pps) total)) (seq a m))
        total.
Proof.
  intros Hp Ht. revert a. induction m as [|m IH]; intros a Hn.
  - cbn [seq map tiles]. rewrite Z.min_r by (rewrite Nat.add_0_r in Hn; lia).
    reflexivity.
  - cbn [seq map tiles].
    assert (Ha : Z.of_nat a * pps < total) by nia.
    split; [rewrite Z.min_l by lia; reflexivity|].
    split; [lia|].
    replace (Z.of_nat a * pps + pps) with (Z.of_nat (S a) * pps) by lia.
    apply IH. replace (S a + m)%nat with (a + S m)%nat by lia. exact Hn.
Qed.

Section SplitShape.

Context {Page Image : Type} (env : Env Page Image).
Variables (reader : list Page) (total_pages pages_per_split : Z).
Variables (names : list str) (output_dir : str).

(** The handler's check has passed and every unit file can be written. *)
Hypothesis step_pos : 0 < pages_per_split.
Hypothesis pages_exist : total_pages <= len reader.
Hypothesis total_pos : 0 < total_pages.
Hypothesis names_match :
  math_ceil_div total_pages pages_per_split = Ok (len names).
Hypothesis all_writable : units_writable env output_dir names ".pdf".

Let run :=
  split_to_pdf env reader total_pages pages_per_split names output_dir.

(** X4. No PDF written by [split_to_pdf] is empty and none holds more
    than [pages_per_split] pages: every unit but the last holds exactly
    [pages_per_split], and the last holds the pages that remain. *)
Theorem split_to_pdf_unit_sizes (i : nat) (path : str) (pages : list Page) :
  nth_error (pdf_units (events run)) i = Some (path, pages) ->
  1 <= len pages <= pages_per_split
  /\ (S i < length names -> len pages = pages_per_split)%nat
  /\ (S i = length names ->
      len pages = total_pages - Z.of_nat i * pages_per_split).
Proof.
  unfold run.
  rewrite (split_to_pdf_run env reader total_pages pages_per_split names
             output_dir step_pos pages_exist total_pos names_match
             all_writable).
  unfold events. cbn [fst]. rewrite pdf_units_rounds.
  rewrite nth_error_map, nth_error_seq.
  pose proof (math_ceil_div_bounds _ _ _ step_pos names_match) as Hb.
  unfold len in Hb.
  destruct (Nat.ltb_spec i (length names)) as [Hi|Hi]; [|discriminate].
  cbn [option_map Nat.add]. intros [= _ <-].
  assert (Hstart : Z.of_nat i * pages_per_split < total_pages) by nia.
  rewrite len_slice by lia.
  repeat split; try lia; intros Hi'.
  all: first [ rewrite Z.min_l by nia; lia | rewrite Z.min_r by nia; lia ].
Qed.

(** X5. The progress lines of a split announce page ranges, counted
    from 1, that follow one another without gap or overlap from page 1
    to page [total_pages]. *)
Theorem split_to_pdf_ranges_tile :
  tiles 1 (page_ranges (events run)) total_pages.
Proof.
  unfold run.
  rewrite (split_to_pdf_run env reader total_pages pages_per_split names
             output_dir step_pos pages_exist total_pos names_match
             all_writable).
  unfold events. cbn [fst]. rewrite page_ranges_rounds.
  pose proof (math_ceil_div_bounds _ _ _ step_pos names_match) as Hb.
  unfold len in Hb.
  pose proof (rounds_tile total_pages pages_per_split (length names) 0
                step_pos total_pos Hb) as Ht.
  rewrite Z.min_l in Ht by lia. exact Ht.
Qed.

End SplitShape.

(** X6. Without pages, or with a chunk size that is not positive,
    [split_to_pdf] performs nothing: it returns the empty list, or
    raises [ValueError] for the chunk size 0, before any name is read or
    file written. *)
Theorem split_to_pdf_nothing_to_do {Page Image} (env : Env Page Image)
    (reader : list Page) (total_pages pages_per_split : Z)
    (names : list str) (output_dir : str) :
  0 <= total_pages ->
  total_pages = 0 \/ pages_per_split <= 0 ->
  split_to_pdf env reader total_pages pages_per_split names output_dir =
  ([], if pages_per_split =? 0 then Raise ValueError else Ok []).
Proof.
  intros Ht Hcase. unfold split_to_pdf, range3.
  destruct (pages_per_split =? 0) eqn:E; [reflexivity|].
  apply Z.eqb_neq in E.
  assert (Hlen : range_length 0 total_pages pages_per_split = 0).
  { unfold range_length.
    destruct (0 <? pages_per_split) eqn:Ep.
    - apply Z.ltb_lt in Ep.
      destruct (0 <? total_pages) eqn:E0; [apply Z.ltb_lt in E0; lia|].
      reflexivity.
    - destruct (total_pages <? 0) eqn:E0; [apply Z.ltb_lt in E0; lia|].
      reflexivity. }
  rewrite Hlen. reflexivity.
Qed.

(** ** [convert_to_jpg] when images are missing *)

Lemma jpg_units_app {Page Image} (t t' : list (event Page Image)) :
  jpg_units (t ++ t') = jpg_units t ++ jpg_units t'.
Proof.
  induction t as [|e t IH]; [reflexivity|].
  destruct e as [| | | | | |path c| | | |]; cbn [app jpg_units];
    try exact IH.
  destruct c; cbn [app jpg_units]; rewrite ?IH; reflexivity.
Qed.

Lemma map_combine_fst {A B C} (f : A -> C) (l : list A) (l' : list B) :
  map (fun u => (f (fst u), snd u)) (combine l l') = combine (map f l) l'.
Proof.
  revert l'. induction l as [|x l IH]; intros [|y l']; cbn; try reflexivity.
  rewrite IH. reflexivity.
Qed.

(** X7. When the renderer returns fewer images than there are pages
    and names, [convert_to_jpg] shows the page-count warning, saves one
    file per image under the first names, and then ends in
    [IndexError]; it never returns the paths of the files it saved. *)
Theorem convert_to_jpg_images_missing {Page Image} (env : Env Page Image)
    (images : list Image) (names : list str) (output_dir : str)
    (render : str -> result (list Image)) (pdf_path : str)
    (total_pages : Z) :
  convert_from_path env = Some render ->
  render pdf_path = Ok images ->
  len images < Z.min total_pages (len names) ->
  units_writable env output_dir names ".jpg" ->
  let run := convert_to_jpg env pdf_path total_pages names output_dir in
  outcome run = Raise IndexError
  /\ In (StWarning (MsgPageCountMismatch total_pages (len images)))
        (events run)
  /\ jpg_units (events run) =
     combine (map (fun name => unit_path output_dir name ".jpg") names)
             images.
Proof.
  intros Hr Hi Hshort Hw run. subst run.
  rewrite (convert_to_jpg_short_render env images names output_dir render
             pdf_path total_pages Hr Hi Hshort Hw).
  unfold outcome, events. cbn [fst snd].
  destruct (len images =? total_pages) eqn:E; [apply Z.eqb_eq in E; lia|].
  split; [reflexivity|]. split; [left; reflexivity|].
  cbn [app jpg_units]. rewrite jpg_units_events.
  apply (map_combine_fst (fun name => unit_path output_dir name ".jpg")).
Qed.

(** ** The name list, written and read back *)

Lemma lstrip_fixed (s : str) : clean_head s -> lstrip s = s.
Proof.
  destruct s as [|c s]; simpl; [reflexivity|].
  intros ->. reflexivity.
Qed.

Lemma strip_fixed (s : str) : trimmed s -> strip s = s.
Proof.
  intros [Hhead Hlast]. unfold strip, rstrip.
  rewrite (lstrip_fixed s Hhead), (lstrip_fixed (rev s) Hlast).
  apply rev_involutive.
Qed.

(** Stripping removes white space at the two ends and nothing else. *)
Lemma strip_inside (s : str) :
  exists p q, s = p ++ strip s ++ q /\ is_blank p = true /\ is_blank q = true.
Proof.
  destruct (lstrip_suffix s) as [p [Hs Hp]].
  destruct (rstrip_prefix (lstrip s)) as [q [Hl Hq]].
  exists p, q. unfold strip. rewrite <- Hl, <- Hs. auto.
Qed.

Lemma split_piece (sep : char) (p : str) :
  ~ In sep p -> split sep p = [p].
Proof.
  induction p as [|c p IH]; [reflexivity|].
  intros Hfree. simpl.
  destruct (c =? sep)%N eqn:E.
  - apply N.eqb_eq in E. exfalso. apply Hfree. left. exact E.
  - rewrite IH by (intros H; apply Hfree; right; exact H). reflexivity.
Qed.

Lemma split_app (sep : char) (a b : str) :
  split sep (a ++ sep :: b) = split sep a ++ split sep b.
Proof.
  induction a as [|c a IH]; simpl.
  - rewrite N.eqb_refl. reflexivity.
  - destruct (c =? sep)%N; [rewrite IH; reflexivity|].
    rewrite IH.
    pose proof (split_not_nil sep a) as Hne.
    destruct (split sep a) as [|p ps]; [congruence|]. reflexivity.
Qed.

Lemma split_join (sep : char) (pieces : list str) :
  pieces <> [] -> Forall (fun piece => ~ In sep piece) pieces ->
  split sep (PyStr.join sep pieces) = pieces.
Proof.
  induction pieces as [|p ps IH]; [congruence|].
  intros _ Hfree. inversion Hfree as [|? ? Hp Hps]; subst.
  destruct ps as [|p' ps].
  - apply split_piece. exact Hp.
  - change (PyStr.join sep (p :: p' :: ps))
      with (p ++ sep :: PyStr.join sep (p' :: ps)).
    rewrite split_app, split_piece by exact Hp.
    rewrite IH by (try discriminate; exact Hps). reflexivity.
Qed.

Lemma names_of_lines_app (l l' : list str) :
  names_of_lines (l ++ l') = names_of_lines l ++ names_of_lines l'.
Proof.
  induction l as [|x l IH]; [reflexivity|].
  simpl. destruct (truthy (strip x)); rewrite IH; reflexivity.
Qed.

Lemma names_of_lines_clean (names : list str) :
  Forall (fun name => name <> [] /\ trimmed name) names ->
  names_of_lines names = names.
Proof.
  induction 1 as [|name names [Hne Htrim] _ IH]; [reflexivity|].
  simpl. rewrite (strip_fixed name Htrim), IH.
  destruct name; [congruence|reflexivity].
Qed.

(** X8. Names written one per line are read back as they are: for
    names that are non-empty, have no white space at either end and
    hold no line break, [parse_names] of the lines joined by line
    breaks is the list itself, in the same order and with repetitions
    kept. *)
Theorem parse_names_join (names : list str) :
  Forall (fun name => name <> [] /\ trimmed name /\ ~ In newline name) names ->
  parse_names (PyStr.join newline names) = names.
Proof.
  intros Hnames. unfold parse_names.
  destruct names as [|name names]; [reflexivity|].
  rewrite split_join.
  - apply names_of_lines_clean.
    eapply Forall_impl; [|exact Hnames]. intros n [H1 [H2 _]]. auto.
  - discriminate.
  - eapply Forall_impl; [|exact Hnames]. intros n [_ [_ H3]]. exact H3.
Qed.

(** X9. The name list of two texts put on consecutive lines is the
    name list of the first followed by that of the second. *)
Theorem parse_names_app (text text' : str) :
  parse_names (text ++ newline :: text') =
  parse_names text ++ parse_names text'.
Proof.
  unfold parse_names. rewrite split_app. apply names_of_lines_app.
Qed.

(** X10. Every name comes from one line of the text and differs from
    it only by white space removed at the two ends; in particular no
    name holds a line break. *)
Theorem parse_names_from_lines (text : str) :
  Forall (fun name =>
            (exists line p q,
               In line (split newline text)
               /\ line = p ++ name ++ q
               /\ is_blank p = true /\ is_blank q = true)
            /\ ~ In newline name)
         (parse_names text).
Proof.
  unfold parse_names. rewrite names_of_lines_spec.
  apply Forall_forall. intros name Hin.
  apply in_map_iff in Hin. destruct Hin as [line [<- Hline]].
  apply filter_In in Hline. destruct Hline as [Hline _].
  destruct (strip_inside line) as [p [q [Heq [Hp Hq]]]].
  split.
  - exists line, p, q. auto.
  - intros Hnl.
    pose proof (split_pieces_free newline text) as Hfree.
    rewrite Forall_forall in Hfree. apply (Hfree line Hline).
    rewrite Heq. apply in_or_app. right. apply in_or_app. left. exact Hnl.
Qed.

(** ** The shape of every request *)

Section Shapes.

Context {Page Image : Type}.

Lemma bind_emit {B} (e : event Page Image) (f : unit -> M Page Image B) :
  bind (emit e) f = (e :: events (f tt), outcome (f tt)).
Proof. unfold bind, emit, events, outcome. destruct (f tt). reflexivity. Qed.

Lemma bind_lift_ok {A B} (a : A) (f : A -> M Page Image B) : bind (lift (Ok a)) f = f a.
Proof. unfold bind, lift. destruct (f a). reflexivity. Qed.

Lemma bind_lift_raise {A B} (e : exn) (f : A -> M Page Image B) :
  bind (lift (Raise e)) f = ([], Raise e).
Proof. reflexivity. Qed.

Lemma events_bind {A B} (m : M Page Image A) (f : A -> M Page Image B) :
  events (bind m f) =
  events m ++ match outcome m with
              | Ok a => events (f a)
              | Raise _ => []
              end.
Proof.
  destruct m as [t [a|e]]; unfold bind, events, outcome; cbn [fst snd].
  - destruct (f a). reflexivity.
  - rewrite app_nil_r. reflexivity.
Qed.

Lemma outcome_bind {A B} (m : M Page Image A) (f : A -> M Page Image B) :
  outcome (bind m f) =
  match outcome m with
  | Ok a => outcome (f a)
  | Raise e => Raise e
  end.
Proof.
  destruct m as [t [a|e]]; unfold bind, outcome; cbn [snd];
    [destruct (f a)|]; reflexivity.
Qed.

Lemma forallb_bind {A B} (P : event Page Image -> bool) (m : M Page Image A) (f : A -> M Page Image B) :
  forallb P (events m) = true ->
  (forall a, forallb P (events (f a)) = true) ->
  forallb P (events (bind m f)) = true.
Proof.
  intros Hm Hf. rewrite events_bind, forallb_app, Hm.
  destruct (outcome m); [apply Hf|reflexivity].
Qed.

Lemma forallb_for_each {X S} (P : event Page Image -> bool) (xs : list X)
    (body : X -> S -> M Page Image S) (s : S) :
  (forall x s', forallb P (events (body x s')) = true) ->
  forallb P (events (for_each xs body s)) = true.
Proof.
  intros Hbody. revert s. induction xs as [|x xs IH]; intros s;
    [reflexivity|].
  cbn [for_each]. apply forallb_bind; [apply Hbody|apply IH].
Qed.

Lemma forallb_weaken (P Q : event Page Image -> bool) (t : list (event Page Image)) :
  (forall e, P e = true -> Q e = true) ->
  forallb P t = true -> forallb Q t = true.
Proof.
  intros HPQ. rewrite !forallb_forall. intros H e He. apply HPQ, H, He.
Qed.

Lemma unit_event_quiet (e : event Page Image) : is_unit_event e = true -> quiet e = true.
Proof. destruct e as [| | | | | |path [| |]| | | |]; cbn; congruence. Qed.

Lemma quiet_before_archive (e : event Page Image) :
  quiet e = true -> before_archive e = true.
Proof. unfold quiet. intros H. apply andb_prop in H. tauto. Qed.

Variable env : Env Page Image.

Lemma write_file_units (path : str) (c : content Page Image) :
  (forall buffer, c <> UploadedBytes buffer) ->
  forallb is_unit_event (events (write_file env path c)) = true.
Proof.
  intros Hc. unfold write_file. destruct (writable env path); [|reflexivity].
  destruct c; try reflexivity. exfalso. eapply Hc. reflexivity.
Qed.

(** Whatever its arguments, [split_to_pdf] does nothing but write unit
    files and progress lines. *)
Lemma split_to_pdf_units (reader : list Page) (total_pages pps : Z)
    (names : list str) (output_dir : str) :
  forallb is_unit_event
    (events (split_to_pdf env reader total_pages pps names output_dir)) = true.
Proof.
  unfold split_to_pdf.
  apply forallb_bind; [reflexivity|]. intros chunk_starts.
  apply forallb_bind; [|reflexivity].
  apply forallb_for_each. intros i [generated_files file_index].
  unfold split_body.
  apply forallb_bind; [reflexivity|]. intros writer.
  apply forallb_bind; [reflexivity|]. intros name.
  apply forallb_bind; [apply write_file_units; discriminate|]. intros _.
  apply forallb_bind; reflexivity.
Qed.

(** With a renderer, [convert_to_jpg] does nothing but warn, save images
    and write progress lines. *)
Lemma convert_to_jpg_units (render : str -> result (list Image))
    (pdf_path : str) (total_pages : Z) (names : list str) (output_dir : str) :
  convert_from_path env = Some render ->
  forallb is_unit_event
    (events (convert_to_jpg env pdf_path total_pages names output_dir)) = true.
Proof.
  intros Hr. unfold convert_to_jpg. rewrite Hr.
  apply forallb_bind; [reflexivity|]. intros images.
  apply forallb_bind; [destruct (negb _); reflexivity|]. intros _.
  apply forallb_for_each. intros i generated_files.
  unfold convert_body.
  apply forallb_bind; [reflexivity|]. intros name.
  apply forallb_bind; [reflexivity|]. intros image.
  apply forallb_bind; [apply write_file_units; discriminate|]. intros _.
  apply forallb_bind; reflexivity.
Qed.

(** [package] on a non-empty list. *)
Lemma package_run (generated_files : list str) :
  generated_files <> [] ->
  package env generated_files =
  if writable env (os_path_join (temp_dir env) zip_file_name)
  then (package_events env generated_files, Ok tt)
  else ([], Raise OSError).
Proof.
  intros Hne. unfold package, package_events.
  destruct generated_files as [|f fs]; [congruence|].
  cbn [truthy]. destruct (writable env _); [|reflexivity].
  rewrite bind_emit. unfold events, outcome.
  unfold bind at 1. rewrite zip_loop_run. reflexivity.
Qed.

Variables (r : request) (file : upload) (names : list str).

(** The unit generation the handler dispatches to (lines 137-142). *)
Let generate (reader : list Page) : M Page Image (list str) :=
  match output_format r with
  | pdf =>
      bind (emit (StWrite MsgSplitting))
        (fun _ => split_to_pdf env reader (len reader) (pages_per_split r)
                    names (os_path_join (temp_dir env) (lit "output")))
  | jpg =>
      bind (emit (StWrite MsgConverting))
        (fun _ => convert_to_jpg env
                    (os_path_join (temp_dir env) (upload_name file))
                    (len reader) names
                    (os_path_join (temp_dir env) (lit "output")))
  end.

Lemma generate_shape (reader : list Page) :
  forallb before_archive (events (generate reader)) = true
  /\ (forall f fs, outcome (generate reader) = Ok (f :: fs) ->
        forallb quiet (events (generate reader)) = true).
Proof.
  unfold generate. destruct (output_format r).
  - assert (H : forallb quiet
       (events (bind (emit (StWrite MsgSplitting))
          (fun _ => split_to_pdf env reader (len reader) (pages_per_split r)
                      names (os_path_join (temp_dir env) (lit "output")))))
       = true).
    { apply forallb_bind; [reflexivity|]. intros _.
      eapply forallb_weaken; [apply unit_event_quiet|].
      apply split_to_pdf_units. }
    split; [|intros; exact H].
    eapply forallb_weaken; [apply quiet_before_archive|exact H].
  - destruct (convert_from_path env) as [render|] eqn:Hr.
    + assert (H : forallb quiet
         (events (bind (emit (StWrite MsgConverting))
            (fun _ => convert_to_jpg env
                        (os_path_join (temp_dir env) (upload_name file))
                        (len reader) names
                        (os_path_join (temp_dir env) (lit "output")))))
         = true).
      { apply forallb_bind; [reflexivity|]. intros _.
        eapply forallb_weaken; [apply unit_event_quiet|].
        eapply convert_to_jpg_units. exact Hr. }
      split; [|intros; exact H].
      eapply forallb_weaken; [apply quiet_before_archive|exact H].
    + unfold convert_to_jpg. rewrite Hr. split; [reflexivity|].
      intros f fs H. discriminate H.
Qed.

(** Every run of the processing either stops before the archive is
    touched, or goes through without an error message and ends with the
    packaging of a non-empty list of files. *)
Lemma process_shape :
  forallb before_archive (events (process env r file names)) = true
  \/ exists t generated_files,
       generated_files <> []
       /\ forallb quiet t = true
       /\ process env r file names =
          (t ++ package_events env generated_files, Ok tt).
Proof.
  unfold process, write_file.
  destruct (writable env (os_path_join (temp_dir env) (upload_name file)));
    [|left; reflexivity].
  rewrite bind_emit.
  destruct (PdfReader env _) as [reader|e]; [|left; reflexivity].
  rewrite bind_lift_ok, bind_emit.
  destruct (math_ceil_div _ _) as [n|e]; [|left; reflexivity].
  rewrite bind_lift_ok.
  destruct (negb (n =? len names)); [left; reflexivity|].
  rewrite bind_emit. fold (generate reader).
  rewrite events_bind, outcome_bind.
  destruct (generate_shape reader) as [Hbefore Hquiet].
  destruct (generate reader) as [tg [[|f fs]|e]] eqn:Hg;
    unfold events, outcome in *; cbn [fst snd] in *.
  - left. cbn [forallb]. rewrite forallb_app, Hbefore. reflexivity.
  - rewrite package_run by discriminate.
    destruct (writable env _).
    + right. exists (FileWrite (os_path_join (temp_dir env) (upload_name file))
                       (UploadedBytes (getbuffer file))
                     :: StInfo (MsgTotalPages (upload_name file) (len reader))
                     :: MakeDirs (os_path_join (temp_dir env) (lit "output"))
                     :: tg), (f :: fs).
      split; [discriminate|]. split; [|reflexivity].
      cbn [forallb]. rewrite (Hquiet f fs eq_refl). reflexivity.
    + left. cbn [fst snd forallb]. rewrite forallb_app, Hbefore. reflexivity.
  - left. cbn [forallb]. rewrite app_nil_r. exact Hbefore.
Qed.

End Shapes.

Section Requests.

Context {Page Image : Type} (env : Env Page Image) (r : request).

Let names := parse_names (custom_names_text r).

(** What the handler adds around the processing (lines 111-114 and
    161-162): the cleanup, then the catch-all error if it raised. *)
Lemma handler_started (file : upload) :
  uploaded_file r = Some file -> button r = true -> names <> [] ->
  handler env r =
  (events (process env r file names)
   ++ TempDirRemoved (temp_dir env)
   :: match outcome (process env r file names) with
      | Ok _ => []
      | Raise e => [StError (MsgSevere e)]
      end,
   Ok tt).
Proof.
  intros Hu Hb Hn. unfold handler. rewrite Hu, Hb. fold names.
  destruct names as [|n ns] eqn:En; [congruence|]. cbn [truthy negb].
  destruct (process env r file (n :: ns)) as [t [[]|e]];
    unfold try_except, with_temp_dir, events, outcome; cbn [fst snd].
  - reflexivity.
  - unfold emit. rewrite <- app_assoc. reflexivity.
Qed.

(** The requests that start no processing show at most one message. *)
Lemma handler_not_started :
  (forall file, uploaded_file r = Some file -> button r = true ->
     names = []) ->
  handler env r = ([StInfo MsgPleaseUpload], Ok tt)
  \/ handler env r = ([], Ok tt)
  \/ handler env r = ([StError MsgNoNames], Ok tt).
Proof.
  intros Hno. unfold handler.
  destruct (uploaded_file r) as [file|]; [|left; reflexivity].
  destruct (button r); [|right; left; reflexivity].
  fold names. rewrite (Hno file eq_refl eq_refl).
  right; right; reflexivity.
Qed.

Lemma handler_cases :
  (exists file, uploaded_file r = Some file /\ button r = true
                /\ names <> [])
  \/ handler env r = ([StInfo MsgPleaseUpload], Ok tt)
  \/ handler env r = ([], Ok tt)
  \/ handler env r = ([StError MsgNoNames], Ok tt).
Proof.
  destruct (uploaded_file r) as [file|] eqn:Hu.
  - destruct (button r) eqn:Hb.
    + destruct names as [|n ns] eqn:En.
      * right. apply handler_not_started. intros; exact En.
      * left. exists file. repeat split. congruence.
    + right. apply handler_not_started. intros; congruence.
  - right. apply handler_not_started. intros; congruence.
Qed.

Lemma before_archive_in (t : list (event Page Image)) (e : event Page Image) :
  forallb before_archive t = true -> In e t ->
  is_archive_event e = false /\ is_cleanup e = false.
Proof.
  intros Ht He. rewrite forallb_forall in Ht. specialize (Ht e He).
  unfold before_archive in Ht. apply andb_prop in Ht.
  destruct Ht as [H1 H2]. apply negb_true_iff in H1, H2. auto.
Qed.

Lemma quiet_no_error (t : list (event Page Image)) :
  forallb quiet t = true -> filter is_error t = [].
Proof.
  induction t as [|e t IH]; [reflexivity|].
  cbn [forallb filter]. intros H. apply andb_prop in H. destruct H as [He Ht].
  unfold quiet in He. apply andb_prop in He. destruct He as [_ He].
  apply negb_true_iff in He. rewrite He. apply IH, Ht.
Qed.

Lemma package_events_no_error (files : list str) :
  filter is_error (package_events env files) = [].
Proof.
  unfold package_events. cbn [filter is_error]. rewrite filter_app.
  cbn [filter is_error]. rewrite app_nil_r.
  induction files as [|f fs IH]; [reflexivity|]. exact IH.
Qed.

Lemma package_events_members (files : list str) :
  archive_members (package_events env files) = map os_path_basename files.
Proof.
  unfold package_events. cbn [archive_members].
  rewrite archive_members_app, archive_members_writes.
  apply app_nil_r.
Qed.

Lemma tail_in (e : event Page Image) (o : result unit) :
  In e (TempDirRemoved (temp_dir env)
        :: match o with
           | Ok _ => []
           | Raise x => [StError (MsgSevere x)]
           end) ->
  is_archive_event e = false.
Proof.
  destruct o; cbn; intros H; repeat destruct H as [H|H]; subst;
    try reflexivity; contradiction.
Qed.

(** The handler never shows the success message together with one of
    its own errors. *)
Lemma handler_success_quiet :
  In StSuccess (events (handler env r)) ->
  filter is_error (events (handler env r)) = [].
Proof.
  destruct handler_cases as [[file [Hu [Hb Hn]]]|[H|[H|H]]].
  2-4: rewrite H; cbn; intros Hin; repeat destruct Hin as [Hin|Hin];
       try discriminate; contradiction.
  rewrite (handler_started file Hu Hb Hn). unfold events at 1 4. cbn [fst].
  destruct (process_shape env r file names) as [Hbefore|[t [files [Hne [Hq Hp]]]]].
  - intros Hin. exfalso. apply in_app_or in Hin. destruct Hin as [Hin|Hin].
    + destruct (before_archive_in _ _ Hbefore Hin). discriminate.
    + apply tail_in in Hin. discriminate.
  - intros _. rewrite Hp. unfold events, outcome. cbn [fst snd].
    rewrite !filter_app, (quiet_no_error t Hq), package_events_no_error.
    reflexivity.
Qed.

(** X12. No request produces an empty archive: whenever the archive
    file is opened, at least one member is added to it. *)
Theorem handler_archive_not_empty (zip_path : str) :
  In (ZipOpen zip_path) (events (handler env r)) ->
  archive_members (events (handler env r)) <> [].
Proof.
  destruct handler_cases as [[file [Hu [Hb Hn]]]|[H|[H|H]]].
  2-4: rewrite H; cbn; intros Hin; repeat destruct Hin as [Hin|Hin];
       try discriminate; contradiction.
  rewrite (handler_started file Hu Hb Hn). unfold events at 1 3. cbn [fst].
  destruct (process_shape env r file names) as [Hbefore|[t [files [Hne [Hq Hp]]]]].
  - intros Hin. exfalso. apply in_app_or in Hin. destruct Hin as [Hin|Hin].
    + destruct (before_archive_in _ _ Hbefore Hin). discriminate.
    + apply tail_in in Hin. discriminate.
  - intros _. rewrite Hp. unfold events, outcome. cbn [fst snd].
    rewrite !archive_members_app, package_events_members.
    destruct files as [|f fs]; [congruence|].
    intros Hnil. apply app_eq_nil in Hnil. destruct Hnil as [Hnil _].
    apply app_eq_nil in Hnil. destruct Hnil as [_ Hnil]. discriminate.
Qed.

(** X11. A run of the script that shows the success message shows no
    error message of the handler, whatever the environment does: the
    only error it can show is the import warning of line 16, which
    every run shows when pdf2image is missing. *)
Theorem script_success_excludes_errors :
  In StSuccess (events (script env r)) ->
  filter is_error (events (script env r)) =
  match convert_from_path env with
  | Some _ => []
  | None => [StError MsgPdf2imageMissing]
  end.
Proof.
  unfold script. rewrite events_bind. unfold import_guard.
  destruct (convert_from_path env) as [render|];
    unfold ret, emit, events, outcome; cbn [fst snd app filter is_error].
  - apply handler_success_quiet.
  - intros [Hin|Hin]; [discriminate Hin|].
    f_equal. apply handler_success_quiet. exact Hin.
Qed.

(** X13. Once processing starts, the handler never raises, and its
    events are those of the processing, then the removal of the
    temporary directory, then the catch-all error message exactly when
    the processing raised, with the exception it raised; the processing
    itself never removes the directory, so it is removed exactly once,
    after every other action. *)
Theorem handler_cleans_up (file : upload) :
  uploaded_file r = Some file -> button r = true -> names <> [] ->
  outcome (handler env r) = Ok tt
  /\ events (handler env r) =
     events (process env r file names)
     ++ TempDirRemoved (temp_dir env)
     :: match outcome (process env r file names) with
        | Ok _ => []
        | Raise e => [StError (MsgSevere e)]
        end
  /\ forallb (fun e => negb (is_cleanup e))
             (events (process env r file names)) = true.
Proof.
  intros Hu Hb Hn. rewrite (handler_started file Hu Hb Hn).
  split; [reflexivity|]. split; [reflexivity|].
  destruct (process_shape env r file names)
    as [Hbefore|[t [files [Hne [Hq Hp]]]]].
  - eapply forallb_weaken; [|exact Hbefore].
    intros e He. unfold before_archive in He. apply andb_prop in He. tauto.
  - rewrite Hp. unfold events. cbn [fst]. rewrite forallb_app.
    apply andb_true_intro. split.
    + eapply forallb_weaken; [|exact Hq].
      intros e He. unfold quiet, before_archive in He.
      apply andb_prop in He. destruct He as [He _].
      apply andb_prop in He. tauto.
    + unfold package_events. cbn [forallb is_cleanup negb andb].
      rewrite forallb_app. cbn [forallb is_cleanup negb andb].
      rewrite andb_true_r. clear. induction files; [reflexivity|exact IHfiles].
Qed.

End Requests.

(** ** Whole requests *)

Lemma take_until_app (sep : char) (a b : str) :
  ~ In sep a -> take_until sep (a ++ sep :: b) = a.
Proof.
  induction a as [|c a IH]; simpl; intros Hfree.
  - rewrite N.eqb_refl. reflexivity.
  - destruct (c =? sep)%N eqn:E.
    + apply N.eqb_eq in E. exfalso. apply Hfree. left. exact E.
    + rewrite IH by (intros H; apply Hfree; right; exact H). reflexivity.
Qed.

Lemma take_until_all (sep : char) (a : str) :
  ~ In sep a -> take_until sep a = a.
Proof.
  induction a as [|c a IH]; simpl; intros Hfree; [reflexivity|].
  destruct (c =? sep)%N eqn:E.
  - apply N.eqb_eq in E. exfalso. apply Hfree. left. exact E.
  - rewrite IH by (intros H; apply Hfree; right; exact H). reflexivity.
Qed.

(** The base name of a file joined to a directory is the file name,
    when the file name holds no slash. *)
Lemma os_path_basename_join (dir file_name : str) :
  ~ In slash file_name ->
  os_path_basename (os_path_join dir file_name) = file_name.
Proof.
  intros Hfree.
  assert (Hrev : ~ In slash (rev file_name)) by (rewrite <- in_rev; exact Hfree).
  unfold os_path_join, os_path_basename.
  destruct (startswith1 slash file_name) eqn:Es.
  { destruct file_name as [|c f]; [discriminate|]. simpl in Es.
    apply N.eqb_eq in Es. exfalso. apply Hfree. left. exact Es. }
  destruct (negb (truthy dir) || endswith1 slash dir) eqn:Ed.
  - rewrite rev_app_distr.
    destruct dir as [|d0 dir'] eqn:Edir.
    + cbn [rev]. rewrite app_nil_r, take_until_all by exact Hrev.
      apply rev_involutive.
    + cbn [truthy negb orb] in Ed. unfold endswith1, startswith1 in Ed.
      destruct (rev (d0 :: dir')) as [|x rd]; [discriminate|].
      apply N.eqb_eq in Ed. subst x.
      rewrite take_until_app by exact Hrev. apply rev_involutive.
  - rewrite rev_app_distr. cbn [rev]. rewrite <- app_assoc. cbn [app].
    rewrite take_until_app by exact Hrev. apply rev_involutive.
Qed.

Lemma unit_basename (output_dir name : str) (extension : string) :
  ~ In slash name -> ~ In slash (lit extension) ->
  os_path_basename (unit_path output_dir name extension) =
  name ++ lit extension.
Proof.
  intros Hn He. apply os_path_basename_join.
  intros H. apply in_app_or in H. tauto.
Qed.

Lemma before_archive_no_members {Page Image} (t : list (event Page Image)) :
  forallb before_archive t = true -> archive_members t = [].
Proof.
  induction t as [|e t IH]; [reflexivity|].
  cbn [forallb]. intros H. apply andb_prop in H. destruct H as [He Ht].
  destruct e; cbn [archive_members]; try (apply IH; exact Ht).
  discriminate He.
Qed.

Lemma units_path_members {Page Image} (env : Env Page Image)
    (output_dir : str) (names : list str) (extension : string) :
  Forall (fun name => ~ In slash name) names ->
  ~ In slash (lit extension) ->
  archive_members
    (package_events env
       (map (fun name => unit_path output_dir name extension) names)) =
  map (fun name => name ++ lit extension) names.
Proof.
  intros Hnames Hext. rewrite package_events_members, map_map.
  apply map_ext_in. intros name Hin.
  rewrite Forall_forall in Hnames.
  apply unit_basename; [apply Hnames; exact Hin|exact Hext].
Qed.

Section WholeRequest.

Context {Page Image : Type} (env : Env Page Image).
Variables (r : request) (file : upload) (reader : list Page).

Let names := parse_names (custom_names_text r).
Let input_pdf_path := os_path_join (temp_dir env) (upload_name file).
Let output_dir := os_path_join (temp_dir env) (lit "output").

(** A file was uploaded, the button pressed, the upload copied into
    the temporary directory and parsed into the pages [reader]. *)
Hypothesis uploaded : uploaded_file r = Some file.
Hypothesis pressed : button r = true.
Hypothesis copy_written : writable env input_pdf_path = true.
Hypothesis parsed : PdfReader env input_pdf_path = Ok reader.

(** The processing up to the name-count check, when the count is
    [expected]. *)
Lemma process_checked (expected : Z) :
  math_ceil_div (len reader) (pages_per_split r) = Ok expected ->
  process env r file names =
  bind (emit (FileWrite input_pdf_path (UploadedBytes (getbuffer file))))
    (fun _ =>
     bind (emit (StInfo (MsgTotalPages (upload_name file) (len reader))))
       (fun _ =>
        if negb (expected =? len names) then
          bind (emit (StError MsgNameCountMismatch))
            (fun _ => emit (StError (MsgExpectedProvided expected
                                                         (len names))))
        else
          bind (emit (MakeDirs output_dir))
            (fun _ =>
             bind
               match output_format r with
               | pdf =>
                   bind (emit (StWrite MsgSplitting))
                     (fun _ => split_to_pdf env reader (len reader)
                                 (pages_per_split r) names output_dir)
               | jpg =>
                   bind (emit (StWrite MsgConverting))
                     (fun _ => convert_to_jpg env input_pdf_path (len reader)
                                 names output_dir)
               end
               (fun generated_files => package env generated_files)))).
Proof.
  intros Hc. unfold process, write_file. fold input_pdf_path.
  rewrite copy_written, parsed, bind_lift_ok, Hc, bind_lift_ok.
  reflexivity.
Qed.

(** X14. A document without pages cannot be processed: whatever names
    are given, the request ends with the name-count error, 0 files
    expected, and writes no output. *)
Theorem handler_empty_document :
  reader = [] -> names <> [] -> pages_per_split r <> 0 ->
  handler env r =
  ([FileWrite input_pdf_path (UploadedBytes (getbuffer file));
    StInfo (MsgTotalPages (upload_name file) 0);
    StError MsgNameCountMismatch;
    StError (MsgExpectedProvided 0 (len names));
    TempDirRemoved (temp_dir env)],
   Ok tt).
Proof.
  intros Hempty Hn Hstep.
  rewrite (handler_started env r file uploaded pressed Hn). fold names.
  assert (Hc : math_ceil_div (len reader) (pages_per_split r) = Ok 0).
  { rewrite Hempty. unfold math_ceil_div.
    destruct (pages_per_split r =? 0) eqn:E; [apply Z.eqb_eq in E; lia|].
    reflexivity. }
  rewrite (process_checked 0 Hc). rewrite Hempty.
  assert (Hlen : (0 =? len names) = false).
  { apply Z.eqb_neq. unfold len. destruct names; [congruence|]. simpl. lia. }
  rewrite Hlen. reflexivity.
Qed.

End WholeRequest.

(** X15. No output without validation: whenever a request writes an
    output (the output directory, a unit file, the archive or one of
    its members), a document was uploaded and parsed, and the number of
    names given equals [math.ceil(total_pages / pages_per_split)]. *)
Theorem handler_outputs_validated {Page Image} (env : Env Page Image)
    (r : request) :
  outputs (events (handler env r)) <> [] ->
  exists file reader,
    uploaded_file r = Some file
    /\ button r = true
    /\ PdfReader env (os_path_join (temp_dir env) (upload_name file))
       = Ok reader
    /\ math_ceil_div (len reader) (pages_per_split r)
       = Ok (len (parse_names (custom_names_text r))).
Proof.
  intros Hout.
  destruct (handler_cases env r) as [[file [Hu [Hb Hn]]]|[H|[H|H]]].
  2-4: exfalso; apply Hout; rewrite H; reflexivity.
  rewrite (handler_started env r file Hu Hb Hn) in Hout.
  exists file.
  destruct (writable env (os_path_join (temp_dir env) (upload_name file)))
    eqn:Hw.
  2:{ exfalso. apply Hout. unfold process, write_file. rewrite Hw.
      reflexivity. }
  destruct (PdfReader env (os_path_join (temp_dir env) (upload_name file)))
    as [reader|e] eqn:Hp.
  2:{ exfalso. apply Hout. unfold process, write_file. rewrite Hw, Hp.
      reflexivity. }
  exists reader. repeat split; try assumption.
  destruct (math_ceil_div (len reader) (pages_per_split r)) as [n|e] eqn:Hc.
  - rewrite (process_checked env r file reader Hw Hp n Hc) in Hout.
    destruct (n =? len (parse_names (custom_names_text r))) eqn:E;
      [apply Z.eqb_eq in E; congruence|].
    exfalso. apply Hout. reflexivity.
  - exfalso. apply Hout. unfold process, write_file.
    rewrite Hw, Hp, bind_emit, bind_lift_ok, bind_emit, Hc. reflexivity.
Qed.

(** ** Requests that deliver *)

Lemma pdf_units_app {Page Image} (t t' : list (event Page Image)) :
  pdf_units (t ++ t') = pdf_units t ++ pdf_units t'.
Proof.
  induction t as [|e t IH]; [reflexivity|].
  destruct e as [| | | | | |path c| | | |]; cbn [app pdf_units];
    try exact IH.
  destruct c; cbn [app pdf_units]; rewrite ?IH; reflexivity.
Qed.

Lemma package_events_no_units {Page Image} (env : Env Page Image)
    (files : list str) :
  pdf_units (package_events env files) = []
  /\ jpg_units (package_events env files) = [].
Proof.
  unfold package_events. cbn [pdf_units jpg_units].
  rewrite pdf_units_app, jpg_units_app. cbn [pdf_units jpg_units].
  rewrite !app_nil_r.
  induction files as [|f fs IH]; [split; reflexivity|exact IH].
Qed.

Lemma package_events_success {Page Image} (env : Env Page Image)
    (files : list str) (t t' : list (event Page Image)) :
  In StSuccess (t ++ package_events env files ++ t').
Proof.
  apply in_or_app. right. apply in_or_app. left.
  unfold package_events. right. apply in_or_app. right. left. reflexivity.
Qed.

Section Delivered.

Context {Page Image : Type} (env : Env Page Image).
Variables (r : request) (file : upload) (reader : list Page).

Let names := parse_names (custom_names_text r).
Let input_pdf_path := os_path_join (temp_dir env) (upload_name file).
Let output_dir := os_path_join (temp_dir env) (lit "output").

(** A file was uploaded, the button pressed, the upload copied and
    parsed into the pages [reader]; no name holds a slash and the
    archive file can be created. *)
Hypothesis uploaded : uploaded_file r = Some file.
Hypothesis pressed : button r = true.
Hypothesis copy_written : writable env input_pdf_path = true.
Hypothesis parsed : PdfReader env input_pdf_path = Ok reader.
Hypothesis flat_names : Forall (fun name => ~ In slash name) names.
Hypothesis zip_written :
  writable env (os_path_join (temp_dir env) zip_file_name) = true.

(** X16. A PDF request whose name count matches delivers: the archive
    holds, in the order of the names, one member [name.pdf] per name;
    the units written, glued in that order, are the pages of the
    upload; and the success message is shown. *)
Theorem handler_pdf_delivers :
  output_format r = pdf ->
  0 < len reader ->
  0 < pages_per_split r ->
  math_ceil_div (len reader) (pages_per_split r) = Ok (len names) ->
  units_writable env output_dir names ".pdf" ->
  outcome (handler env r) = Ok tt
  /\ archive_members (events (handler env r)) =
     map (fun name => name ++ lit ".pdf") names
  /\ concat (map snd (pdf_units (events (handler env r)))) = reader
  /\ In StSuccess (events (handler env r)).
Proof.
  intros Hfmt Htotal Hstep Hc Hw.
  pose proof (math_ceil_div_bounds _ _ _ Hstep Hc) as Hb.
  assert (Hn : names <> []).
  { intros E. rewrite E in Hb. unfold len in Hb, Htotal. simpl in Hb. lia. }
  assert (Hrun : handler env r =
    (FileWrite input_pdf_path (UploadedBytes (getbuffer file))
     :: StInfo (MsgTotalPages (upload_name file) (len reader))
     :: MakeDirs output_dir
     :: StWrite MsgSplitting
     :: flat_map (pdf_unit_events reader (len reader) (pages_per_split r)
                                  names output_dir) (seq 0 (length names))
     ++ package_events env
          (map (fun name => unit_path output_dir name ".pdf") names)
     ++ [TempDirRemoved (temp_dir env)],
     Ok tt)).
  { rewrite (handler_started env r file uploaded pressed Hn).
    rewrite (process_checked env r file reader copy_written parsed _ Hc).
    rewrite Z.eqb_refl, Hfmt. cbn [negb].
    rewrite !bind_emit. fold output_dir. fold names.
    rewrite (split_to_pdf_run env reader (len reader) (pages_per_split r)
               names output_dir Hstep (Z.le_refl _) Htotal Hc Hw).
    rewrite events_bind, outcome_bind. unfold events, outcome. cbn [fst snd].
    rewrite package_run by (destruct names; [congruence|discriminate]).
    rewrite zip_written. cbn [fst snd app].
    rewrite <- app_assoc. reflexivity. }
  rewrite Hrun. unfold outcome, events. cbn [fst snd].
  split; [reflexivity|]. split; [|split].
  - cbn [archive_members]. rewrite !archive_members_app.
    rewrite before_archive_no_members.
    + cbn [app archive_members]. rewrite app_nil_r.
      apply units_path_members; [exact flat_names|].
      cbv. intros H. repeat (destruct H as [H|H]; [discriminate H|]). exact H.
    + pose proof (split_to_pdf_units env reader (len reader)
                    (pages_per_split r) names output_dir) as Hu.
      rewrite (split_to_pdf_run env reader (len reader) (pages_per_split r)
                 names output_dir Hstep (Z.le_refl _) Htotal Hc Hw) in Hu.
      unfold events in Hu. cbn [fst] in Hu.
      eapply forallb_weaken; [|exact Hu].
      intros e He. apply quiet_before_archive, unit_event_quiet, He.
  - cbn [pdf_units]. rewrite !pdf_units_app.
    rewrite (proj1 (package_events_no_units env _)).
    cbn [pdf_units app]. rewrite app_nil_r.
    rewrite pdf_units_rounds, map_map. cbn [snd].
    rewrite (chunks_concat reader (len reader) (pages_per_split r)
               Hstep Htotal).
    unfold len in Hb |- *. rewrite Z.min_r by lia. apply (slice_all reader).
  - do 4 right. apply package_events_success.
Qed.

(** X17. A JPG request with one name per page delivers, whatever the
    number widget holds: when the renderer returns at least one image
    per page, the archive holds, in the order of the names, one member
    [name.jpg] per name, the file of name [i] is saved from image [i],
    and the success message is shown. *)
Theorem handler_jpg_delivers (render : str -> result (list Image))
    (images : list Image) :
  output_format r = jpg ->
  convert_from_path env = Some render ->
  render input_pdf_path = Ok images ->
  names <> [] ->
  len names = len reader ->
  len reader <= len images ->
  units_writable env output_dir names ".jpg" ->
  outcome (handler env r) = Ok tt
  /\ archive_members (events (handler env r)) =
     map (fun name => name ++ lit ".jpg") names
  /\ jpg_units (events (handler env r)) =
     combine (map (fun name => unit_path output_dir name ".jpg") names)
             (firstn (length names) images)
  /\ In StSuccess (events (handler env r)).
Proof.
  intros Hfmt Hr Hi Hn Hlen Himg Hw.
  assert (Hc : math_ceil_div (len reader) (pages_per_split r)
               = Ok (len names)).
  { unfold pages_per_split. rewrite Hfmt. unfold math_ceil_div.
    cbn [Z.eqb]. rewrite Z.div_1_r. f_equal. lia. }
  set (warning := if len images =? len reader then []
                  else [StWarning (Page := Page) (Image := Image)
                          (MsgPageCountMismatch (len reader) (len images))]).
  assert (Hconv :
    convert_to_jpg env input_pdf_path (len reader) names output_dir =
    (warning ++ jpg_events 0 output_dir
                  (firstn (length names) (combine names images)),
     Ok (map (fun name => unit_path output_dir name ".jpg") names))).
  { rewrite (convert_to_jpg_prefix env images names output_dir render
               input_pdf_path (len reader) Hr Hi).
    fold warning. unfold range1, range2. rewrite Z.sub_0_r.
    replace (Z.to_nat (Z.min (len reader) (len names)))
      with (length names) by (unfold len in *; lia).
    unfold len in *.
    rewrite (convert_loop_run env images names output_dir (length names) 0 []
               ltac:(lia) ltac:(lia) Hw).
    cbn [bind skipn app]. rewrite firstn_all. reflexivity. }
  assert (Hrun : handler env r =
    (FileWrite input_pdf_path (UploadedBytes (getbuffer file))
     :: StInfo (MsgTotalPages (upload_name file) (len reader))
     :: MakeDirs output_dir
     :: StWrite MsgConverting
     :: (warning ++ jpg_events 0 output_dir
                      (firstn (length names) (combine names images)))
     ++ package_events env
          (map (fun name => unit_path output_dir name ".jpg") names)
     ++ [TempDirRemoved (temp_dir env)],
     Ok tt)).
  { rewrite (handler_started env r file uploaded pressed Hn).
    rewrite (process_checked env r file reader copy_written parsed _ Hc).
    rewrite Z.eqb_refl, Hfmt. cbn [negb].
    rewrite !bind_emit. fold output_dir. fold names. fold input_pdf_path.
    rewrite Hconv.
    rewrite events_bind, outcome_bind. unfold events, outcome. cbn [fst snd].
    rewrite package_run by (destruct names; [congruence|discriminate]).
    rewrite zip_written. cbn [fst snd app].
    rewrite <- !app_assoc. reflexivity. }
  rewrite Hrun. unfold outcome, events. cbn [fst snd].
  split; [reflexivity|]. split; [|split].
  - cbn [archive_members].
    rewrite (archive_members_app (warning ++ _)).
    rewrite (before_archive_no_members (warning ++ _)).
    + rewrite archive_members_app. cbn [app archive_members].
      rewrite app_nil_r.
      apply units_path_members; [exact flat_names|].
      cbv. intros H. repeat (destruct H as [H|H]; [discriminate H|]). exact H.
    + pose proof (convert_to_jpg_units env render input_pdf_path
                    (len reader) names output_dir Hr) as Hu.
      rewrite Hconv in Hu. unfold events in Hu. cbn [fst] in Hu.
      eapply forallb_weaken; [|exact Hu].
      intros e He. apply quiet_before_archive, unit_event_quiet, He.
  - cbn [jpg_units]. rewrite !jpg_units_app.
    rewrite (proj2 (package_events_no_units env _)).
    cbn [jpg_units app]. rewrite !app_nil_r.
    assert (Hwarn : jpg_units warning = []).
    { unfold warning. destruct (_ =? _); reflexivity. }
    rewrite Hwarn, jpg_units_events. cbn [app].
    rewrite combine_firstn, firstn_all.
    apply (map_combine_fst (fun name => unit_path output_dir name ".jpg")).
  - do 4 right. apply package_events_success.
Qed.

End Delivered.

(** X18. An upload the PDF parser rejects: the request shows the
    catch-all error with the parser's exception, after removing the
    temporary directory, and does nothing else; the only file written is
    the copy of the upload. *)
Theorem handler_unreadable_upload {Page Image} (env : Env Page Image)
    (r : request) (file : upload) (e : exn) :
  uploaded_file r = Some file ->
  button r = true ->
  parse_names (custom_names_text r) <> [] ->
  writable env (os_path_join (temp_dir env) (upload_name file)) = true ->
  PdfReader env (os_path_join (temp_dir env) (upload_name file)) = Raise e ->
  handler env r =
  ([FileWrite (os_path_join (temp_dir env) (upload_name file))
              (UploadedBytes (getbuffer file));
    TempDirRemoved (temp_dir env);
    StError (MsgSevere e)],
   Ok tt).
Proof.
  intros Hu Hb Hn Hw Hp. rewrite (handler_started env r file Hu Hb Hn).
  unfold process, write_file. rewrite Hw, Hp. reflexivity.
Qed.

(** * Further scenarios *)

Module MoreScenarios.

Import Fixture.

Ltac pick := repeat first [ left; reflexivity | right ].

(** Five pages by two with the names a, b only: a.pdf with pages 1-2
    and b.pdf with pages 3-4 are written, then the exception. *)
Lemma two_names_for_three_chunks :
  outcome (split_to_pdf env5 five_pages 5 2 [lit "a"; lit "b"] out) =
    Raise IndexError
  /\ length (pdf_units (events
       (split_to_pdf env5 five_pages 5 2 [lit "a"; lit "b"] out))) = 2%nat
  /\ nth_error (pdf_units (events
       (split_to_pdf env5 five_pages 5 2 [lit "a"; lit "b"] out))) 0 =
     Some (lit "/tmp/t/output/a.pdf", [1; 2]%nat)
  /\ nth_error (pdf_units (events
       (split_to_pdf env5 five_pages 5 2 [lit "a"; lit "b"] out))) 1 =
     Some (lit "/tmp/t/output/b.pdf", [3; 4]%nat).
Proof.
  pose proof (split_to_pdf_short_names env5 five_pages 5 2
                [lit "a"; lit "b"] out ltac:(lia)
                ltac:(vm_compute; discriminate) 3 ltac:(lia) eq_refl
                ltac:(vm_compute; reflexivity)
                ltac:(intros name _; reflexivity)) as H.
  destruct H as [H1 [H2 [H3 _]]].
  split; [exact H1|]. split; [exact H2|].
  split; [exact (H3 0 ltac:(vm_compute; split; [discriminate|reflexivity]))
         |exact (H3 1 ltac:(vm_compute; split; [discriminate|reflexivity]))].
Defined.

(** Five pages by two with the names a, b, c, d: d is not used. *)
Lemma four_names_for_three_chunks :
  outcome (split_to_pdf env5 five_pages 5 2 (abc ++ [lit "d"]) out) =
    Ok [lit "/tmp/t/output/a.pdf"; lit "/tmp/t/output/b.pdf";
        lit "/tmp/t/output/c.pdf"].
Proof.
  apply (split_to_pdf_surplus_names env5 five_pages 5 2 (abc ++ [lit "d"]) out
           ltac:(lia) ltac:(vm_compute; discriminate) 3);
    [lia | reflexivity | vm_compute; discriminate
    | intros name _; reflexivity].
Defined.

(** Five pages by two when the second name ends in a NUL character:
    a.pdf is there, the second unit and c.pdf are not, and the run ends
    in the [ValueError] of [open]. *)
Lemma second_name_refused :
  outcome (split_to_pdf (refuses_nul five_pages) five_pages 5 2
             [lit "a"; b_nul; lit "c"] out) = Raise ValueError
  /\ map fst (pdf_units (events
       (split_to_pdf (refuses_nul five_pages) five_pages 5 2
          [lit "a"; b_nul; lit "c"] out))) = [lit "/tmp/t/output/a.pdf"].
Proof.
  apply (split_to_pdf_write_failure (refuses_nul five_pages)
           five_pages 5 2 [lit "a"; b_nul; lit "c"] out ltac:(lia)
           ltac:(vm_compute; discriminate) 1%nat);
    [lia | reflexivity | simpl; lia
    | intros [|j] Hj; [reflexivity | lia] | reflexivity].
Defined.

(** The last unit of five pages by two holds one page. *)
Lemma last_unit_one_page :
  1 <= len [5%nat] <= 2
  /\ ((3 < length abc)%nat -> len [5%nat] = 2)
  /\ (3%nat = length abc -> len [5%nat] = 5 - Z.of_nat 2 * 2).
Proof.
  apply (split_to_pdf_unit_sizes env5 five_pages 5 2 abc out
           ltac:(lia) ltac:(vm_compute; discriminate) ltac:(lia) eq_refl
           ltac:(intros name _; reflexivity) 2%nat (lit "/tmp/t/output/c.pdf")).
  reflexivity.
Defined.

(** The progress lines of five pages by two: 1-2, 3-4, 5-5. *)
Lemma five_by_two_ranges :
  tiles 1 (page_ranges (events (split_to_pdf env5 five_pages 5 2 abc out))) 5.
Proof.
  apply (split_to_pdf_ranges_tile env5 five_pages 5 2 abc out);
    [lia | vm_compute; discriminate | lia | reflexivity
    | intros name _; reflexivity].
Defined.

(** A document without pages is not split. *)
Lemma no_pages_no_units :
  split_to_pdf (healthy [] []) [] 0 2 abc out = ([], Ok []).
Proof.
  apply (split_to_pdf_nothing_to_do (healthy [] []) [] 0 2 abc out);
    [lia | left; reflexivity].
Defined.

(** Three pages, three names, two images. *)
Lemma two_images_for_three_pages :
  outcome (convert_to_jpg (healthy [10; 20]%nat [1; 2; 3]%nat)
             (lit "/tmp/t/in.pdf") 3 xyz out) = Raise IndexError
  /\ In (StWarning (MsgPageCountMismatch 3 2))
        (events (convert_to_jpg (healthy [10; 20]%nat [1; 2; 3]%nat)
                   (lit "/tmp/t/in.pdf") 3 xyz out))
  /\ jpg_units (events (convert_to_jpg (healthy [10; 20]%nat [1; 2; 3]%nat)
                          (lit "/tmp/t/in.pdf") 3 xyz out)) =
     [(lit "/tmp/t/output/x.jpg", 10%nat); (lit "/tmp/t/output/y.jpg", 20%nat)].
Proof.
  apply (convert_to_jpg_images_missing (healthy [10; 20]%nat [1; 2; 3]%nat)
           [10; 20]%nat xyz out (fun _ => Ok [10; 20]%nat)
           (lit "/tmp/t/in.pdf") 3);
    [reflexivity | reflexivity | vm_compute; reflexivity
    | intros name _; reflexivity].
Defined.

(** The names a, b, c written one per line are read back. *)
Lemma abc_read_back : parse_names (lines abc) = abc.
Proof.
  apply (parse_names_join abc).
  repeat constructor; try discriminate;
    cbv; intros H; repeat (destruct H as [H|H]; [discriminate H|]); exact H.
Defined.

(** The delivered request of five pages by two shows no error when
    pdf2image is there. *)
Lemma delivered_without_error :
  filter is_error (events (script env5 (req pdf 2 abc))) = [].
Proof.
  apply (script_success_excludes_errors env5 (req pdf 2 abc)).
  vm_compute. pick.
Defined.

(** Without pdf2image the same request delivers too, and the run shows
    the import warning beside the success message. *)
Lemma delivered_with_import_warning :
  In StSuccess (events (script (no_renderer five_pages) (req pdf 2 abc)))
  /\ filter is_error
       (events (script (no_renderer five_pages) (req pdf 2 abc))) =
     [StError MsgPdf2imageMissing].
Proof. split; [vm_compute; pick|reflexivity]. Qed.

(** Its archive is not empty. *)
Lemma delivered_archive :
  archive_members (events (handler env5 (req pdf 2 abc))) <> [].
Proof.
  apply (handler_archive_not_empty env5 (req pdf 2 abc)
           (os_path_join (lit "/tmp/t") zip_file_name)).
  vm_compute. pick.
Defined.

(** The request of three pages as JPG with two images: the processing
    raises [IndexError], the directory is removed, and the catch-all
    error with that exception is the last thing shown. *)
Lemma images_missing_cleans_up :
  outcome (handler (healthy [10; 20]%nat [1; 2; 3]%nat) (req jpg 1 xyz))
    = Ok tt
  /\ events (handler (healthy [10; 20]%nat [1; 2; 3]%nat) (req jpg 1 xyz)) =
     events (process (healthy [10; 20]%nat [1; 2; 3]%nat) (req jpg 1 xyz)
                     doc xyz)
     ++ [TempDirRemoved (lit "/tmp/t"); StError (MsgSevere IndexError)]
  /\ forallb (fun e => negb (is_cleanup e))
       (events (process (healthy [10; 20]%nat [1; 2; 3]%nat) (req jpg 1 xyz)
                        doc xyz)) = true.
Proof.
  exact (handler_cleans_up (healthy [10; 20]%nat [1; 2; 3]%nat)
           (req jpg 1 xyz) doc eq_refl eq_refl
           ltac:(vm_compute; discriminate)).
Defined.

(** An upload without pages, one name given. *)
Lemma empty_upload :
  handler (healthy [] []) (req pdf 1 [lit "a"]) =
  ([FileWrite (lit "/tmp/t/in.pdf") (UploadedBytes (getbuffer doc));
    StInfo (MsgTotalPages (lit "in.pdf") 0);
    StError MsgNameCountMismatch;
    StError (MsgExpectedProvided 0 1);
    TempDirRemoved (lit "/tmp/t")],
   Ok tt).
Proof.
  apply (handler_empty_document (healthy [] []) (req pdf 1 [lit "a"]) doc []);
    [reflexivity | reflexivity | reflexivity | reflexivity | reflexivity
    | discriminate | discriminate].
Defined.

(** The delivered request was validated: 3 names for 5 pages by 2. *)
Lemma delivered_validated :
  exists file reader,
    uploaded_file (req pdf 2 abc) = Some file
    /\ button (req pdf 2 abc) = true
    /\ PdfReader env5 (os_path_join (temp_dir env5) (upload_name file))
       = Ok reader
    /\ math_ceil_div (len reader) (pages_per_split (req pdf 2 abc))
       = Ok (len (parse_names (custom_names_text (req pdf 2 abc)))).
Proof.
  apply (handler_outputs_validated env5 (req pdf 2 abc)).
  vm_compute. discriminate.
Defined.

(** Five pages by two, names a, b, c: the archive holds a.pdf, b.pdf,
    c.pdf and the units glue to the five pages. *)
Lemma five_by_two_delivered :
  outcome (handler env5 (req pdf 2 abc)) = Ok tt
  /\ archive_members (events (handler env5 (req pdf 2 abc))) =
     [lit "a.pdf"; lit "b.pdf"; lit "c.pdf"]
  /\ concat (map snd (pdf_units (events (handler env5 (req pdf 2 abc))))) =
     five_pages
  /\ In StSuccess (events (handler env5 (req pdf 2 abc))).
Proof.
  apply (handler_pdf_delivers env5 (req pdf 2 abc) doc five_pages);
    try reflexivity; try lia.
  - repeat constructor;
      cbv; intros H; repeat (destruct H as [H|H]; [discriminate H|]); exact H.
  - intros name _. reflexivity.
Defined.

(** Three pages as JPG, names x, y, z, the number widget at 7: the
    archive holds x.jpg, y.jpg, z.jpg. *)
Lemma three_pages_delivered :
  outcome (handler env3 (req jpg 7 xyz)) = Ok tt
  /\ archive_members (events (handler env3 (req jpg 7 xyz))) =
     [lit "x.jpg"; lit "y.jpg"; lit "z.jpg"]
  /\ jpg_units (events (handler env3 (req jpg 7 xyz))) =
     [(lit "/tmp/t/output/x.jpg", 10%nat); (lit "/tmp/t/output/y.jpg", 20%nat);
      (lit "/tmp/t/output/z.jpg", 30%nat)]
  /\ In StSuccess (events (handler env3 (req jpg 7 xyz))).
Proof.
  apply (handler_jpg_delivers env3 (req jpg 7 xyz) doc [1; 2; 3]%nat
           eq_refl eq_refl eq_refl eq_refl
           ltac:(repeat constructor; cbv; intros H;
                 repeat (destruct H as [H|H]; [discriminate H|]); exact H)
           eq_refl (fun _ => Ok [10; 20; 30]%nat) [10; 20; 30]%nat);
    [reflexivity | reflexivity | reflexivity | vm_compute; discriminate
    | reflexivity | vm_compute; discriminate | intros name _; reflexivity].
Defined.

(** An upload that is no PDF. *)
Lemma unreadable_upload :
  handler unreadable (req pdf 2 abc) =
  ([FileWrite (lit "/tmp/t/in.pdf") (UploadedBytes (getbuffer doc));
    TempDirRemoved (lit "/tmp/t");
    StError (MsgSevere LibraryError)],
   Ok tt).
Proof.
  apply (handler_unreadable_upload unreadable (req pdf 2 abc) doc
           LibraryError);
    [reflexivity | reflexivity | vm_compute; discriminate | reflexivity
    | reflexivity].
Defined.

End MoreScenarios.
